(** * Transformer-fusion: masked pooling, ablation model, SAM and checkpointing

    Shallow embedding of [models.py] and [train.py].

    Numbers.  A tensor entry is a [scalar]: an exact rational when it is
    finite, or one of the three IEEE non-finite values.  Division by zero
    is modelled; rounding and overflow are not, so that nothing here says
    that a sum or a product of finite entries is finite in the program.

    Tensors.  A tensor is its shape together with its entries as nested
    lists; an operation that torch rejects on shape grounds returns [None]. *)

From Stdlib Require Import QArith Qcanon ZArith Lia.
From stdpp Require Import base option list gmap strings fin_maps.

#[global] Set Warnings "-clear-no-such-hyp".

(** ** Scalars *)

Module Scalar.

Inductive scalar : Type :=
  | Fin (q : Qc)
  | PInf
  | NInf
  | NaN.

#[global] Instance scalar_eq_dec : EqDecision scalar.
Proof. solve_decision. Defined.

Definition is_finite (x : scalar) : bool :=
  match x with Fin _ => true | _ => false end.

Definition zero : scalar := Fin 0%Qc.
Definition one : scalar := Fin 1%Qc.

(** The infinity that a product or quotient of sign [c] with [+inf] gives. *)
Definition signed_inf (c : comparison) (positive : scalar) : scalar :=
  match c, positive with
  | Eq, _ => NaN
  | Gt, s => s
  | Lt, PInf => NInf
  | Lt, NInf => PInf
  | Lt, s => s
  end.

Definition sgn (q : Qc) : comparison := (q ?= 0)%Qc.

Definition add (x y : scalar) : scalar :=
  match x, y with
  | Fin a, Fin b => Fin (a + b)%Qc
  | NaN, _ | _, NaN => NaN
  | PInf, NInf | NInf, PInf => NaN
  | PInf, _ | _, PInf => PInf
  | NInf, _ | _, NInf => NInf
  end.

Definition mul (x y : scalar) : scalar :=
  match x, y with
  | Fin a, Fin b => Fin (a * b)%Qc
  | NaN, _ | _, NaN => NaN
  | Fin a, s | s, Fin a => signed_inf (sgn a) s
  | PInf, PInf | NInf, NInf => PInf
  | PInf, NInf | NInf, PInf => NInf
  end.

(** True division, as [torch.div] without a rounding mode. *)
Definition div (x y : scalar) : scalar :=
  match x, y with
  | NaN, _ | _, NaN => NaN
  | Fin a, Fin b =>
      if decide (b = 0%Qc) then signed_inf (sgn a) PInf else Fin (a / b)%Qc
  | Fin _, _ => Fin 0%Qc
  | s, Fin b => if decide (b = 0%Qc) then s else signed_inf (sgn b) s
  | _, _ => NaN
  end.

(** [x >= y], false whenever a NaN is involved. *)
Definition ge (x y : scalar) : bool :=
  match x, y with
  | NaN, _ | _, NaN => false
  | Fin a, Fin b => bool_decide (b <= a)%Qc
  | PInf, _ | _, NInf => true
  | _, _ => false
  end.

(** [x == 0] on a tensor entry. *)
Definition is_zero (x : scalar) : bool :=
  match x with Fin q => bool_decide (q = 0%Qc) | _ => false end.

End Scalar.
Export Scalar.

(** ** Tensors *)

Module Tensor.

Record tensor2 (A : Type) : Type := Tensor2 {
  rows2 : nat;
  cols2 : nat;
  data2 : list (list A)
}.
Arguments Tensor2 {A} _ _ _.
Arguments rows2 {A} _.
Arguments cols2 {A} _.
Arguments data2 {A} _.

Record tensor3 (A : Type) : Type := Tensor3 {
  dim0 : nat;
  dim1 : nat;
  dim2 : nat;
  data3 : list (list (list A))
}.
Arguments Tensor3 {A} _ _ _ _.
Arguments dim0 {A} _.
Arguments dim1 {A} _.
Arguments dim2 {A} _.
Arguments data3 {A} _.

Definition vadd (x y : list scalar) : list scalar := zip_with add x y.

(** [x.sum(dim=1)] on a (B, T, D) tensor. *)
Definition sum_dim1 (x : tensor3 scalar) : tensor2 scalar :=
  Tensor2 (dim0 x) (dim2 x)
    (map (fun s => foldr vadd (replicate (dim2 x) zero) s) (data3 x)).

(** [m.sum(dim=1)] on a (B, T) tensor: a 1-D tensor of length B. *)
Definition sum_rows (m : tensor2 scalar) : list scalar :=
  map (foldr add zero) (data2 m).

(** [c.unsqueeze(1)] on a 1-D tensor. *)
Definition unsqueeze1 {A} (c : list A) : tensor2 A :=
  Tensor2 (length c) 1 (map (fun x => [x]) c).

(** Broadcasting of one dimension. *)
Definition broadcast_dim (n m : nat) : option nat :=
  if decide (n = m) then Some n
  else if decide (n = 1) then Some m
  else if decide (m = 1) then Some n
  else None.

Definition expand_to {A} (n : nat) (l : list A) : list A :=
  match l with
  | [x] => replicate n x
  | _ => l
  end.

Definition broadcast2 {A} (r c : nat) (t : tensor2 A) : list (list A) :=
  expand_to r (map (expand_to c) (data2 t)).

(** [torch.div(x, y)] on 2-D tensors. *)
Definition div (x y : tensor2 scalar) : option (tensor2 scalar) :=
  r ← broadcast_dim (rows2 x) (rows2 y);
  c ← broadcast_dim (cols2 x) (cols2 y);
  Some (Tensor2 r c
          (zip_with (zip_with Scalar.div) (broadcast2 r c x) (broadcast2 r c y))).

(** [torch.cat((x, y), dim=1)] on 2-D tensors. *)
Definition cat2_dim1 {A} (x y : tensor2 A) : option (tensor2 A) :=
  if decide (rows2 x = rows2 y)
  then Some (Tensor2 (rows2 x) (cols2 x + cols2 y)
               (zip_with app (data2 x) (data2 y)))
  else None.

Definition map2 {A B} (f : A -> B) (t : tensor2 A) : tensor2 B :=
  Tensor2 (rows2 t) (cols2 t) (map (map f) (data2 t)).

(** The result of [y.squeeze(-1)] on a 2-D tensor is 1-D when the last
    dimension has size one, and [y] itself otherwise. *)
Inductive squeezed : Type :=
  | Squeezed1 (l : list scalar)
  | Squeezed2 (t : tensor2 scalar).

Definition squeeze_last (t : tensor2 scalar) : squeezed :=
  if decide (cols2 t = 1) then Squeezed1 (concat (data2 t)) else Squeezed2 t.

(** Rows and columns of a nested list exchanged; [n] is the row length. *)
Definition transpose_ll {A} (n : nat) (l : list (list A)) : list (list A) :=
  map (fun j => omap (fun r => r !! j) l) (seq 0 n).

(** [x.transpose(1, 2)]: (B, T, D) to (B, D, T). *)
Definition transpose12 {A} (x : tensor3 A) : tensor3 A :=
  Tensor3 (dim0 x) (dim2 x) (dim1 x) (map (transpose_ll (dim2 x)) (data3 x)).

(** [x.permute(1, 0, 2)]: (B, T, D) to (T, B, D). *)
Definition permute102 {A} (x : tensor3 A) : tensor3 A :=
  Tensor3 (dim1 x) (dim0 x) (dim2 x) (transpose_ll (dim1 x) (data3 x)).

(** [torch.cat((x, y), dim=2)] on 3-D tensors. *)
Definition cat3_dim2 {A} (x y : tensor3 A) : option (tensor3 A) :=
  if decide (dim0 x = dim0 y /\ dim1 x = dim1 y)
  then Some (Tensor3 (dim0 x) (dim1 x) (dim2 x + dim2 y)
               (zip_with (zip_with app) (data3 x) (data3 y)))
  else None.

(** [torch.cat((x, y), dim=1)] on 3-D tensors. *)
Definition cat3_dim1 {A} (x y : tensor3 A) : option (tensor3 A) :=
  if decide (dim0 x = dim0 y /\ dim2 x = dim2 y)
  then Some (Tensor3 (dim0 x) (dim1 x + dim1 y) (dim2 x)
               (zip_with app (data3 x) (data3 y)))
  else None.

(** [x.expand(B, -1, -1)] and [x.expand(B, -1)]: the first dimension must
    have size one, or size [B] already. *)
Definition expand3 {A} (B : nat) (x : tensor3 A) : option (tensor3 A) :=
  if decide (dim0 x = 1 \/ dim0 x = B)
  then Some (Tensor3 B (dim1 x) (dim2 x) (expand_to B (data3 x)))
  else None.

Definition expand2 {A} (B : nat) (x : tensor2 A) : option (tensor2 A) :=
  if decide (rows2 x = 1 \/ rows2 x = B)
  then Some (Tensor2 B (cols2 x) (expand_to B (data2 x)))
  else None.

Definition broadcast3 {A} (a b c : nat) (t : tensor3 A) : list (list (list A)) :=
  expand_to a (map (fun s => expand_to b (map (expand_to c) s)) (data3 t)).

(** [x + y] on 3-D tensors. *)
Definition add3 (x y : tensor3 scalar) : option (tensor3 scalar) :=
  a ← broadcast_dim (dim0 x) (dim0 y);
  b ← broadcast_dim (dim1 x) (dim1 y);
  c ← broadcast_dim (dim2 x) (dim2 y);
  Some (Tensor3 a b c
          (zip_with (zip_with (zip_with add))
             (broadcast3 a b c x) (broadcast3 a b c y))).

(** [f[:, 0]]: the first position of every sequence. *)
Definition select0 {A} (f : tensor3 A) : option (tensor2 A) :=
  if decide (dim1 f = 0) then None
  else Some (Tensor2 (dim0 f) (dim2 f) (omap (fun s => s !! 0) (data3 f))).

(** The entry of a 2-D tensor at row [b] and column [i]. *)
Definition entry2 {A} (t : tensor2 A) (b i : nat) : option A :=
  r ← data2 t !! b; r !! i.

(** [torch.ones(r, c)]. *)
Definition ones2 (r c : nat) : tensor2 scalar :=
  Tensor2 r c (replicate r (replicate c one)).

End Tensor.
Export Tensor.


(** ** What the sources import

    [torch.nn]'s activations and dropout, and the layers of [layers.py],
    [annotated_transformer.py] and [detr_transformer.py], none of which is
    part of the sources at hand.  Each is a parameter: a type of modules, a
    constructor and a forward pass.  A constructor's first argument is the
    attribute the module is stored under, since every instance draws its
    own weights (and, for dropout, its own mask). *)

Class TorchNN : Type := {
  GELU : scalar -> scalar;
  Sigmoid : scalar -> scalar;
  Dropout : string -> Qc -> tensor2 scalar -> tensor2 scalar;
  Dropout3 : string -> Qc -> tensor3 scalar -> tensor3 scalar;
  nnLayerNorm : Type;
  nnLayerNorm_init : string -> nat -> nnLayerNorm
}.

Class Layers `{TorchNN} : Type := {
  (* layers.py *)
  FusionBlock : Type;
  FusionBlock_init : string -> forall (dim num_heads mlp_ratio : nat), FusionBlock;
  FusionBlock_forward :
    FusionBlock -> tensor3 scalar -> tensor2 scalar -> option (tensor3 scalar);
  Projection : Type;
  get_projection : string -> nat -> nat -> string -> Projection;
  Projection_forward : Projection -> tensor3 scalar -> option (tensor3 scalar);
  GAP : Type;
  GAP_init : GAP;
  GAP_forward :
    GAP -> tensor3 scalar -> tensor2 scalar -> option (tensor2 scalar);
  (* annotated_transformer.py *)
  LayerNorm : Type;
  LayerNorm_init : string -> nat -> LayerNorm;
  LayerNorm_forward : LayerNorm -> tensor3 scalar -> option (tensor3 scalar);
  MultiHeadedAttention : Type;
  MultiHeadedAttention_init : string -> nat -> nat -> MultiHeadedAttention;
  MultiHeadedAttention_forward :
    MultiHeadedAttention -> tensor3 scalar -> tensor3 scalar -> tensor3 scalar ->
    tensor2 scalar -> option (tensor3 scalar);
  PositionwiseFeedForward : Type;
  PositionwiseFeedForward_init : string -> nat -> nat -> Qc -> PositionwiseFeedForward;
  PositionwiseFeedForward_forward :
    PositionwiseFeedForward -> tensor3 scalar -> option (tensor3 scalar);
  (* detr_transformer.py *)
  TransformerEncoderLayer : Type;
  TransformerEncoderLayer_init :
    string -> nat -> nat -> nat -> Qc -> string -> bool -> TransformerEncoderLayer;
  TransformerEncoder : Type;
  TransformerEncoder_init :
    TransformerEncoderLayer -> nat -> option nnLayerNorm -> TransformerEncoder;
  TransformerEncoder_forward :
    TransformerEncoder -> tensor3 scalar -> tensor2 Z -> option (tensor3 scalar)
}.

(** ** [models.py] *)

Module Models.

(** [nn.Linear(in_features, out_features)] with its weight (out x in) and
    bias (out). *)
Record Linear : Type := {
  in_features : nat;
  out_features : nat;
  weight : list (list scalar);
  bias : list scalar
}.

Definition dot (w x : list scalar) : scalar :=
  foldr add zero (zip_with mul w x).

Definition Linear_row (l : Linear) (x : list scalar) : list scalar :=
  zip_with (fun w b => add (dot w x) b) (weight l) (bias l).

(** Applying the layer to a (B, D) tensor: torch raises when D is not
    [in_features], whatever B is. *)
Definition Linear_forward (l : Linear) (x : tensor2 scalar)
  : option (tensor2 scalar) :=
  if decide (cols2 x = in_features l)
  then Some (Tensor2 (rows2 x) (out_features l) (map (Linear_row l) (data2 x)))
  else None.

(** Python's [a or b] on an optional size: [b] when [a] is [None] or 0. *)
Definition py_or (a : option nat) (b : nat) : nat :=
  match a with
  | Some (S n) => S n
  | _ => b
  end.

Section WithLayers.

Context `{L : Layers}.

Record ShallowNN : Type := {
  fc1 : Linear;
  act1 : scalar -> scalar;
  fc2 : Linear;
  act2 : scalar -> scalar;
  drop : tensor2 scalar -> tensor2 scalar
}.

(** [ShallowNN.__init__].  The source draws the two weight matrices at
    random (and torch the biases); here they are arguments. *)
Definition ShallowNN_init (in_feat : nat) (hidden_features out_feat : option nat)
    (act_layer : scalar -> scalar) (p : Qc)
    (w1 : list (list scalar)) (b1 : list scalar)
    (w2 : list (list scalar)) (b2 : list scalar) : ShallowNN :=
  let out_feat := py_or out_feat in_feat in
  let hidden_features := py_or hidden_features in_feat in
  {| fc1 := {| in_features := in_feat; out_features := hidden_features;
               weight := w1; bias := b1 |};
     act1 := GELU;
     fc2 := {| in_features := hidden_features; out_features := out_feat;
               weight := w2; bias := b2 |};
     act2 := act_layer;
     drop := Dropout "drop" p |}.

Definition ShallowNN_forward (net : ShallowNN) (x : tensor2 scalar)
  : option (tensor2 scalar) :=
  x ← Linear_forward (fc1 net) x;
  let x := map2 (act1 net) x in
  let x := drop net x in
  x ← Linear_forward (fc2 net) x;
  let x := map2 (act2 net) x in
  Some x.

(** Lines 41-44 of [FeatureFusion.forward], repeated verbatim as lines
    59-62 of [TransformerFusion.forward]: sum over time, divide by the
    mask's row sums, concatenate. *)
Definition mean_pool (feature_audio feature_video : tensor3 scalar)
    (mask : tensor2 scalar) : option (tensor2 scalar) :=
  let feature_audio := sum_dim1 feature_audio in
  let feature_video := sum_dim1 feature_video in
  let mask := sum_rows mask in
  feature_audio ← Tensor.div feature_audio (unsqueeze1 mask);
  feature_video ← Tensor.div feature_video (unsqueeze1 mask);
  cat2_dim1 feature_audio feature_video.

Record FeatureFusion : Type := { ff_fc : ShallowNN }.

Definition FeatureFusion_init (input_dimension hidden_features out_feat : nat)
    (w1 : list (list scalar)) (b1 : list scalar)
    (w2 : list (list scalar)) (b2 : list scalar) : FeatureFusion :=
  {| ff_fc := ShallowNN_init input_dimension (Some hidden_features)
                (Some out_feat) Sigmoid 0%Qc w1 b1 w2 b2 |}.

Definition FeatureFusion_forward (net : FeatureFusion)
    (feature_audio feature_video : tensor3 scalar) (mask : tensor2 scalar)
  : option squeezed :=
  x ← mean_pool feature_audio feature_video mask;
  x ← ShallowNN_forward (ff_fc net) x;
  Some (squeeze_last x).

Record TransformerFusion : Type := {
  tf_audio : FusionBlock;
  tf_video : FusionBlock;
  tf_fc : ShallowNN
}.

Definition TransformerFusion_init
    (video_dimension audio_dimension fused_dimension : nat)
    (w1 : list (list scalar)) (b1 : list scalar)
    (w2 : list (list scalar)) (b2 : list scalar) : TransformerFusion :=
  {| tf_audio := FusionBlock_init "audio" audio_dimension 1 1;
     tf_video := FusionBlock_init "video" video_dimension 1 1;
     tf_fc := ShallowNN_init 161 (Some 128) (Some 1) Sigmoid 0%Qc w1 b1 w2 b2 |}.

Definition TransformerFusion_forward (net : TransformerFusion)
    (feature_audio feature_video : tensor3 scalar) (mask : tensor2 scalar)
  : option squeezed :=
  feature_audio ← FusionBlock_forward (tf_audio net) feature_audio mask;
  feature_video ← FusionBlock_forward (tf_video net) feature_video mask;
  x ← mean_pool feature_audio feature_video mask;
  x ← ShallowNN_forward (tf_fc net) x;
  Some (squeeze_last x).

(** *** The ablation model

    A forward pass runs in a small monad: it can fail (a shape error, an
    index out of range), and it records every call of a normalization layer
    as the pair of the layer's index and of the [pre] flag of the call. *)

Definition norm_call : Type := nat * bool.

Definition Fwd (A : Type) : Type := list norm_call -> option (A * list norm_call).

#[global] Instance Fwd_ret : MRet Fwd := fun _ x t => Some (x, t).

#[global] Instance Fwd_bind : MBind Fwd := fun _ _ k c t =>
  match c t with
  | Some (x, t') => k x t'
  | None => None
  end.

Definition lift {A} (o : option A) : Fwd A := fun t =>
  match o with
  | Some x => Some (x, t)
  | None => None
  end.

Definition tell (e : norm_call) : Fwd unit := fun t => Some (tt, t ++ [e]).

(** A computation that, when it returns, has added [l] to the record. *)
Definition logs {A} (c : Fwd A) (l : list norm_call) : Prop :=
  forall t x t', c t = Some (x, t') -> t' = t ++ l.

Record AblationModel : Type := {
  pre_norm : bool;
  project_type_conv1d : bool;
  audio_prj : Projection;
  video_prj : Projection;
  enable_self_attention : Z;
  enable_cross_attention : Z;
  enable_fused_attention : Z;
  cls_token : tensor3 scalar;
  mask_appnd : tensor2 scalar;
  norms : list LayerNorm;
  aself_attn : MultiHeadedAttention;
  afeed_forward : PositionwiseFeedForward;
  adrop1 : tensor3 scalar -> tensor3 scalar;
  adrop2 : tensor3 scalar -> tensor3 scalar;
  vself_attn : MultiHeadedAttention;
  vfeed_forward : PositionwiseFeedForward;
  vdrop1 : tensor3 scalar -> tensor3 scalar;
  vdrop2 : tensor3 scalar -> tensor3 scalar;
  audio_attn : MultiHeadedAttention;
  video_attn : MultiHeadedAttention;
  drop1 : tensor3 scalar -> tensor3 scalar;
  drop2 : tensor3 scalar -> tensor3 scalar;
  fused_attn : MultiHeadedAttention;
  feed_forward : PositionwiseFeedForward;
  drop3 : tensor3 scalar -> tensor3 scalar;
  drop4 : tensor3 scalar -> tensor3 scalar;
  head : Linear
}.

(** [AblationModel.__init__].  [cls] is the draw of [trunc_normal_] for the
    classification token, [hw] and [hb] the head's weight and bias. *)
Definition AblationModel_init
    (video_dimension audio_dimension fused_dimension : nat) (config_num : Z)
    (project_type : string) (pre_norm : bool)
    (cls : list scalar) (hw : list (list scalar)) (hb : list scalar)
  : AblationModel :=
  let feed_forward := 256 in
  let dropout := Q2Qc (1 # 10) in
  let num_heads := 4 in
  {| pre_norm := pre_norm;
     project_type_conv1d := bool_decide (project_type = "conv1d");
     audio_prj := get_projection "audio_prj" audio_dimension fused_dimension project_type;
     video_prj := get_projection "video_prj" video_dimension fused_dimension project_type;
     enable_self_attention := config_num `mod` 2;
     enable_cross_attention := (config_num `div` 2) `mod` 2;
     enable_fused_attention := (config_num `div` 4) `mod` 2;
     cls_token := Tensor3 1 1 (fused_dimension * 2) [[cls]];
     mask_appnd := ones2 1 1;
     norms := [ LayerNorm_init "norms.0" fused_dimension;
                LayerNorm_init "norms.1" fused_dimension;
                LayerNorm_init "norms.2" fused_dimension;
                LayerNorm_init "norms.3" fused_dimension;
                LayerNorm_init "norms.4" fused_dimension;
                LayerNorm_init "norms.5" fused_dimension;
                LayerNorm_init "norms.6" (fused_dimension * 2);
                LayerNorm_init "norms.7" (fused_dimension * 2) ];
     aself_attn := MultiHeadedAttention_init "aself_attn" num_heads fused_dimension;
     afeed_forward :=
       PositionwiseFeedForward_init "afeed_forward" fused_dimension feed_forward dropout;
     adrop1 := Dropout3 "adrop1" dropout;
     adrop2 := Dropout3 "adrop2" dropout;
     vself_attn := MultiHeadedAttention_init "vself_attn" num_heads fused_dimension;
     vfeed_forward :=
       PositionwiseFeedForward_init "vfeed_forward" fused_dimension feed_forward dropout;
     vdrop1 := Dropout3 "vdrop1" dropout;
     vdrop2 := Dropout3 "vdrop2" dropout;
     audio_attn := MultiHeadedAttention_init "audio_attn" num_heads fused_dimension;
     video_attn := MultiHeadedAttention_init "video_attn" num_heads fused_dimension;
     drop1 := Dropout3 "drop1" dropout;
     drop2 := Dropout3 "drop2" dropout;
     fused_attn := MultiHeadedAttention_init "fused_attn" num_heads (fused_dimension * 2);
     feed_forward :=
       PositionwiseFeedForward_init "feed_forward" (fused_dimension * 2) feed_forward dropout;
     drop3 := Dropout3 "drop3" dropout;
     drop4 := Dropout3 "drop4" dropout;
     head := {| in_features := fused_dimension * 2; out_features := 2;
                weight := hw; bias := hb |} |}.

Definition maybe_normalize (self : AblationModel) (i : nat)
    (x : tensor3 scalar) (pre : bool) : Fwd (tensor3 scalar) :=
  if bool_decide (pre_norm self = pre) then
    norm ← lift (norms self !! i);
    _ ← tell (i, pre);
    lift (LayerNorm_forward norm x)
  else mret x.

(** Lines 177-182: the two projections. *)
Definition project (self : AblationModel) (a v : tensor3 scalar)
  : Fwd (tensor3 scalar * tensor3 scalar) :=
  if project_type_conv1d self then
    a ← lift (Projection_forward (audio_prj self) (transpose12 a));
    let a := transpose12 a in
    v ← lift (Projection_forward (video_prj self) (transpose12 v));
    let v := transpose12 v in
    mret (a, v)
  else
    a ← lift (Projection_forward (audio_prj self) a);
    v ← lift (Projection_forward (video_prj self) v);
    mret (a, v).

(** Lines 185-203: the body of [if self.enable_self_attention]. *)
Definition self_attention_stage (self : AblationModel)
    (a v : tensor3 scalar) (m : tensor2 scalar)
  : Fwd (tensor3 scalar * tensor3 scalar) :=
  let residual := a in
  a ← maybe_normalize self 0 a true;
  x ← lift (MultiHeadedAttention_forward (aself_attn self) a a a m);
  a ← lift (add3 residual (adrop1 self x));
  a ← maybe_normalize self 0 a false;

  let residual := a in
  a ← maybe_normalize self 1 a true;
  x ← lift (PositionwiseFeedForward_forward (afeed_forward self) a);
  a ← lift (add3 residual (adrop2 self x));
  a ← maybe_normalize self 1 a false;

  let residual := v in
  v ← maybe_normalize self 2 v true;
  x ← lift (MultiHeadedAttention_forward (vself_attn self) v v v m);
  v ← lift (add3 residual (vdrop1 self x));
  v ← maybe_normalize self 2 v false;

  let residual := v in
  v ← maybe_normalize self 3 v true;
  x ← lift (PositionwiseFeedForward_forward (vfeed_forward self) v);
  v ← lift (add3 residual (vdrop2 self x));
  v ← maybe_normalize self 3 v false;
  mret (a, v).

(** Lines 206-213: the body of [if self.enable_cross_attention]. *)
Definition cross_attention_stage (self : AblationModel)
    (a v : tensor3 scalar) (m : tensor2 scalar)
  : Fwd (tensor3 scalar * tensor3 scalar) :=
  let residual_a := a in
  let residual_v := v in
  a ← maybe_normalize self 4 a true;
  v ← maybe_normalize self 5 v true;
  x ← lift (MultiHeadedAttention_forward (audio_attn self) a v v m);
  a ← lift (add3 residual_a (drop1 self x));
  x ← lift (MultiHeadedAttention_forward (video_attn self) v a a m);
  v ← lift (add3 residual_v (drop2 self x));
  a ← maybe_normalize self 4 a false;
  v ← maybe_normalize self 5 v false;
  mret (a, v).

(** Lines 215-219: concatenation of the two modalities and prepending of
    the classification token and of its mask entry. *)
Definition prepend_cls (self : AblationModel) (B : nat)
    (a v : tensor3 scalar) (m : tensor2 scalar)
  : option (tensor3 scalar * tensor2 scalar) :=
  f ← cat3_dim2 a v;
  cls_tokens ← expand3 B (cls_token self);
  mask_appnd ← expand2 B (mask_appnd self);
  m ← cat2_dim1 mask_appnd m;
  f ← cat3_dim1 cls_tokens f;
  Some (f, m).

(** Lines 221-228: the fused self-attention and feed-forward sublayers. *)
Definition fused_stage (self : AblationModel)
    (f : tensor3 scalar) (m : tensor2 scalar) : Fwd (tensor3 scalar) :=
  let residual_f := f in
  f ← maybe_normalize self 6 f true;
  x ← lift (MultiHeadedAttention_forward (fused_attn self) f f f m);
  f ← lift (add3 residual_f (drop3 self x));
  f ← maybe_normalize self 6 f false;
  let residual_f := f in
  f ← maybe_normalize self 7 f true;
  x ← lift (PositionwiseFeedForward_forward (feed_forward self) f);
  f ← lift (add3 residual_f (drop4 self x));
  f ← maybe_normalize self 7 f false;
  mret f.

(** [AblationModel.forward]. *)
Definition AblationModel_forward (self : AblationModel)
    (a v : tensor3 scalar) (m : tensor2 scalar) : Fwd (tensor2 scalar) :=
  let B := dim0 a in
  '(a, v) ← project self a v;
  '(a, v) ← (if decide (enable_self_attention self <> 0%Z)
             then self_attention_stage self a v m
             else mret (a, v));
  '(a, v) ← (if decide (enable_cross_attention self <> 0%Z)
             then cross_attention_stage self a v m
             else mret (a, v));
  '(f, m) ← lift (prepend_cls self B a v m);
  f ← fused_stage self f m;
  out ← lift (select0 f);
  out ← lift (Linear_forward (head self) out);
  mret out.

(** The logits of a pass, and its record of normalization calls. *)
Definition AblationModel_logits (self : AblationModel)
    (a v : tensor3 scalar) (m : tensor2 scalar) : option (tensor2 scalar) :=
  fst <$> AblationModel_forward self a v m [].

Definition AblationModel_norm_calls (self : AblationModel)
    (a v : tensor3 scalar) (m : tensor2 scalar) : option (list norm_call) :=
  snd <$> AblationModel_forward self a v m [].

(** *** The encoder-stack model *)

Record DetrTransformerFusion : Type := {
  d_audio_prj : Projection;
  d_video_prj : Projection;
  audio_enc : TransformerEncoder;
  video_enc : TransformerEncoder;
  fused_enc : TransformerEncoder;
  gap : GAP;
  mlp : ShallowNN
}.

Definition DetrTransformerFusion_init
    (video_dimension audio_dimension fused_dimension : nat)
    (w1 : list (list scalar)) (b1 : list scalar)
    (w2 : list (list scalar)) (b2 : list scalar) : DetrTransformerFusion :=
  let feed_forward := 256 in
  let dropout := Q2Qc (2 # 10) in
  let num_layers := 1 in
  let num_heads := 1 in
  let normalize_before := true in
  let a_encoder_layer :=
    TransformerEncoderLayer_init "audio_enc" fused_dimension num_heads
      feed_forward dropout "relu" normalize_before in
  let a_encoder_norm :=
    if normalize_before
    then Some (nnLayerNorm_init "audio_enc.norm" fused_dimension) else None in
  let v_encoder_layer :=
    TransformerEncoderLayer_init "video_enc" fused_dimension num_heads
      feed_forward dropout "relu" normalize_before in
  let v_encoder_norm :=
    if normalize_before
    then Some (nnLayerNorm_init "video_enc.norm" fused_dimension) else None in
  let f_encoder_layer :=
    TransformerEncoderLayer_init "fused_enc" (fused_dimension * 2) num_heads
      feed_forward dropout "relu" normalize_before in
  let f_encoder_norm :=
    if normalize_before
    then Some (nnLayerNorm_init "fused_enc.norm" (fused_dimension * 2)) else None in
  {| d_audio_prj := get_projection "audio_prj" audio_dimension fused_dimension "minimal";
     d_video_prj := get_projection "video_prj" video_dimension fused_dimension "minimal";
     audio_enc := TransformerEncoder_init a_encoder_layer num_layers a_encoder_norm;
     video_enc := TransformerEncoder_init v_encoder_layer num_layers v_encoder_norm;
     fused_enc := TransformerEncoder_init f_encoder_layer num_layers f_encoder_norm;
     gap := GAP_init;
     mlp := ShallowNN_init (fused_dimension * 2) (Some fused_dimension) (Some 1)
              Sigmoid dropout w1 b1 w2 b2 |}.

(** [(m == 0).long()]. *)
Definition eq0_long (m : tensor2 scalar) : tensor2 Z :=
  map2 (fun x => if is_zero x then 1%Z else 0%Z) m.

Definition DetrTransformerFusion_forward (self : DetrTransformerFusion)
    (a v : tensor3 scalar) (m : tensor2 scalar) : option squeezed :=
  let mask := eq0_long m in
  a ← Projection_forward (d_audio_prj self) a;
  v ← Projection_forward (d_video_prj self) v;
  let a := permute102 a in
  let v := permute102 v in
  a ← TransformerEncoder_forward (audio_enc self) a mask;
  v ← TransformerEncoder_forward (video_enc self) v mask;
  f ← cat3_dim2 a v;
  f ← TransformerEncoder_forward (fused_enc self) f mask;
  let f := permute102 f in
  out ← GAP_forward (gap self) f m;
  out ← ShallowNN_forward (mlp self) out;
  Some (squeeze_last out).

End WithLayers.

End Models.

(** ** Masked pooling as the specification words it

    None of the definitions of this module is in the sources.  The two
    poolings are [Models.mean_pool] with one step replaced by what the
    specification describes: the sum by a sum over the valid positions
    only, the divisor by the valid-count clamped to at least one. *)

Module PoolingSpec.

(** A position is valid when its mask entry is not zero. *)
Definition masked_sum_sample (D : nat) (s : list (list scalar))
    (mrow : list scalar) : list scalar :=
  foldr (fun xm acc => if is_zero xm.2 then acc else vadd xm.1 acc)
        (replicate D zero) (zip s mrow).

Definition masked_sum (x : tensor3 scalar) (mask : tensor2 scalar)
  : tensor2 scalar :=
  Tensor2 (dim0 x) (dim2 x)
    (zip_with (masked_sum_sample (dim2 x)) (data3 x) (data2 mask)).


Definition mean_pool_masked_sum (feature_audio feature_video : tensor3 scalar)
    (mask : tensor2 scalar) : option (tensor2 scalar) :=
  let feature_audio := masked_sum feature_audio mask in
  let feature_video := masked_sum feature_video mask in
  let mask := sum_rows mask in
  feature_audio ← Tensor.div feature_audio (unsqueeze1 mask);
  feature_video ← Tensor.div feature_video (unsqueeze1 mask);
  cat2_dim1 feature_audio feature_video.


(** [FeatureFusion.forward] with the masked sum in place of the sum. *)
Definition FeatureFusion_forward_masked (net : Models.FeatureFusion)
    (feature_audio feature_video : tensor3 scalar) (mask : tensor2 scalar)
  : option squeezed :=
  x ← mean_pool_masked_sum feature_audio feature_video mask;
  x ← Models.ShallowNN_forward (Models.ff_fc net) x;
  Some (squeeze_last x).

(** Two inputs of one shape that agree at every valid position. *)
Definition agree_on_valid (x x' : tensor3 scalar) (mask : tensor2 scalar) : Prop :=
  dim0 x = dim0 x' /\ dim1 x = dim1 x' /\ dim2 x = dim2 x' /\
  Forall3 (Forall3 (fun r r' mt => is_zero mt = false -> r = r'))
          (data3 x) (data3 x') (data2 mask).

(** The features of [x] are zero wherever the mask is. *)
Definition zero_padded (x : tensor3 scalar) (mask : tensor2 scalar) : Prop :=
  Forall2 (Forall2 (fun r mt => is_zero mt = true -> r = replicate (dim2 x) zero))
          (data3 x) (data2 mask).

End PoolingSpec.

(** ** The ablation switches as the specification words them *)

Module AblationSpec.
Import Models.

Section WithLayers.

Context `{L : Layers}.

(** The forward pass in which bit 2 of the configuration gates the fused
    stage the way bits 0 and 1 gate theirs.  This is not in the sources:
    there the fused stage is not under any test. *)
Definition AblationModel_forward_gated (self : AblationModel)
    (a v : tensor3 scalar) (m : tensor2 scalar) : Fwd (tensor2 scalar) :=
  let B := dim0 a in
  '(a, v) ← project self a v;
  '(a, v) ← (if decide (enable_self_attention self <> 0%Z)
             then self_attention_stage self a v m
             else mret (a, v));
  '(a, v) ← (if decide (enable_cross_attention self <> 0%Z)
             then cross_attention_stage self a v m
             else mret (a, v));
  '(f, m) ← lift (prepend_cls self B a v m);
  f ← (if decide (enable_fused_attention self <> 0%Z)
       then fused_stage self f m
       else mret f);
  out ← lift (select0 f);
  out ← lift (Linear_forward (head self) out);
  mret out.

(** The indices of the normalization layers of the sublayers that a pass
    runs, in the order of the sublayers. *)
Definition norm_indices (self : AblationModel) : list nat :=
  (if decide (enable_self_attention self <> 0%Z) then [0; 1; 2; 3] else [])
  ++ (if decide (enable_cross_attention self <> 0%Z) then [4; 5] else [])
  ++ [6; 7].

End WithLayers.

End AblationSpec.

(** ** The stages of the ablation model, and its sublayers as the
    specification words them *)

Module AblationStages.
Import Models.

Section WithLayers.

Context `{L : Layers}.

(** Lines 177-213 of [AblationModel.forward]: the projections and the two
    switched stages, which give the audio and the video sequence that
    line 215 concatenates. *)
Definition modality_stages (self : AblationModel)
    (a v : tensor3 scalar) (m : tensor2 scalar)
  : Fwd (tensor3 scalar * tensor3 scalar) :=
  '(a, v) ← project self a v;
  '(a, v) ← (if decide (enable_self_attention self <> 0%Z)
             then self_attention_stage self a v m
             else mret (a, v));
  '(a, v) ← (if decide (enable_cross_attention self <> 0%Z)
             then cross_attention_stage self a v m
             else mret (a, v));
  mret (a, v).

(** The rest of this section is not in the sources, where the pattern of
    a residual sublayer is written out at each of them.

    One residual sublayer [f] with normalization layer [i]: the
    normalization is applied to the input of [f] when [pre_norm] is true,
    and to the sum of the input and of the output of [f] when it is
    false. *)
Definition residual_sublayer (self : AblationModel) (i : nat)
    (f : tensor3 scalar -> option (tensor3 scalar)) (x : tensor3 scalar)
  : option (tensor3 scalar) :=
  norm ← norms self !! i;
  if pre_norm self then
    y ← LayerNorm_forward norm x;
    z ← f y;
    add3 x z
  else
    z ← f x;
    s ← add3 x z;
    LayerNorm_forward norm s.

(** The self-attention stage: four residual sublayers, two per modality. *)
Definition self_attention_sublayers (self : AblationModel)
    (a v : tensor3 scalar) (m : tensor2 scalar)
  : option (tensor3 scalar * tensor3 scalar) :=
  a ← residual_sublayer self 0
         (fun y => adrop1 self <$>
                     MultiHeadedAttention_forward (aself_attn self) y y y m) a;
  a ← residual_sublayer self 1
         (fun y => adrop2 self <$>
                     PositionwiseFeedForward_forward (afeed_forward self) y) a;
  v ← residual_sublayer self 2
         (fun y => vdrop1 self <$>
                     MultiHeadedAttention_forward (vself_attn self) y y y m) v;
  v ← residual_sublayer self 3
         (fun y => vdrop2 self <$>
                     PositionwiseFeedForward_forward (vfeed_forward self) y) v;
  Some (a, v).

(** The cross-attention stage: the two sublayers are interleaved, both
    normalizations come before the two attentions or after the two
    residual additions, and the video attends to the audio sequence that
    the first residual addition gave. *)
Definition cross_attention_sublayers (self : AblationModel)
    (a v : tensor3 scalar) (m : tensor2 scalar)
  : option (tensor3 scalar * tensor3 scalar) :=
  norm_a ← norms self !! 4;
  norm_v ← norms self !! 5;
  if pre_norm self then
    a' ← LayerNorm_forward norm_a a;
    v' ← LayerNorm_forward norm_v v;
    x ← MultiHeadedAttention_forward (audio_attn self) a' v' v' m;
    a1 ← add3 a (drop1 self x);
    y ← MultiHeadedAttention_forward (video_attn self) v' a1 a1 m;
    v1 ← add3 v (drop2 self y);
    Some (a1, v1)
  else
    x ← MultiHeadedAttention_forward (audio_attn self) a v v m;
    a1 ← add3 a (drop1 self x);
    y ← MultiHeadedAttention_forward (video_attn self) v a1 a1 m;
    v1 ← add3 v (drop2 self y);
    a2 ← LayerNorm_forward norm_a a1;
    v2 ← LayerNorm_forward norm_v v1;
    Some (a2, v2).

(** The fused stage: two residual sublayers. *)
Definition fused_sublayers (self : AblationModel)
    (f : tensor3 scalar) (m : tensor2 scalar) : option (tensor3 scalar) :=
  f ← residual_sublayer self 6
         (fun y => drop3 self <$>
                     MultiHeadedAttention_forward (fused_attn self) y y y m) f;
  residual_sublayer self 7
    (fun y => drop4 self <$>
                PositionwiseFeedForward_forward (feed_forward self) y) f.

(** The logits of a pass through these sublayers. *)
Definition AblationModel_logits_sublayers (self : AblationModel)
    (a v : tensor3 scalar) (m : tensor2 scalar) : option (tensor2 scalar) :=
  let B := dim0 a in
  '(a, v) ← fst <$> project self a v [];
  '(a, v) ← (if decide (enable_self_attention self <> 0%Z)
             then self_attention_sublayers self a v m
             else Some (a, v));
  '(a, v) ← (if decide (enable_cross_attention self <> 0%Z)
             then cross_attention_sublayers self a v m
             else Some (a, v));
  '(f, m) ← prepend_cls self B a v m;
  f ← fused_sublayers self f m;
  out ← select0 f;
  Linear_forward (head self) out.

End WithLayers.

End AblationStages.

(** ** The SAM optimizer

    [train_sam] calls [optimizer.first_step] and [optimizer.second_step]
    once per batch, each after a backward pass.  Both belong to [sam.py],
    which is not part of the sources at hand; they are modelled from
    sections 3 and 4.8 of the specification.  Parameters are identified by
    their position in the optimizer's list. *)

Module SAM.

Record param : Type := {
  value : list scalar;
  grad : option (list scalar)
}.

Record optimizer : Type := {
  params : list param;
  old_p : gmap nat (list scalar);
  rho : scalar
}.

Section WithNorm.

(** The norm of all gradients together, and the update rule of the base
    optimizer, are torch's. *)
Variable grad_norm : list param -> scalar.
Variable base_step : list param -> list param.

(** Modelled from the spec: the move of one parameter by the ascent step
    of [SAM.first_step], along its gradient scaled by [scale]; a parameter
    without a gradient is skipped. *)
Definition perturb (scale : scalar) (p : param) : param :=
  match grad p with
  | None => p
  | Some g => {| value := vadd (value p) (map (mul scale) g); grad := grad p |}
  end.

(** Modelled from the spec: the pre-ascent snapshots that [SAM.first_step]
    takes, one for every parameter that has a gradient, keyed by the
    parameter's position; [i] is the position of the head of [ps]. *)
Fixpoint snapshot (i : nat) (ps : list param) (st : gmap nat (list scalar))
  : gmap nat (list scalar) :=
  match ps with
  | [] => st
  | p :: ps =>
      snapshot (S i) ps
        (match grad p with
         | None => st
         | Some _ => <[i := value p]> st
         end)
  end.

(** Modelled from the spec: [SAM.first_step], the ascent step.  The scale
    is the radius [rho] over the norm of all gradients together. *)
Definition first_step (o : optimizer) : optimizer :=
  let scale := Scalar.div (rho o) (grad_norm (params o)) in
  {| params := map (perturb scale) (params o);
     old_p := snapshot 0 (params o) (old_p o);
     rho := rho o |}.

(** Modelled from the spec: the restoration at the head of
    [SAM.second_step], which puts the snapshot back for every parameter
    that has a gradient; [None] when a snapshot is missing. *)
Fixpoint restore_from (st : gmap nat (list scalar)) (i : nat) (ps : list param)
  : option (list param) :=
  match ps with
  | [] => Some []
  | p :: ps =>
      match grad p with
      | None => rest ← restore_from st (S i) ps; Some (p :: rest)
      | Some _ =>
          old ← st !! i;
          rest ← restore_from st (S i) ps;
          Some ({| value := old; grad := grad p |} :: rest)
      end
  end.

(** Modelled from the spec: the restoration, on the optimizer. *)
Definition restore (o : optimizer) : option optimizer :=
  ps ← restore_from (old_p o) 0 (params o);
  Some {| params := ps; old_p := old_p o; rho := rho o |}.

(** Modelled from the spec: [SAM.second_step], the restoration followed by
    the update of the base optimizer. *)
Definition second_step (o : optimizer) : option optimizer :=
  o ← restore o;
  Some {| params := base_step (params o); old_p := old_p o; rho := rho o |}.

(** The positions the ascent step perturbs are those it takes a snapshot
    of; the positions the restoration writes are those of the parameters
    that have a gradient when it runs. *)
Definition perturbed (o : optimizer) : gset nat :=
  dom (snapshot 0 (params o) ∅).

Fixpoint with_grad (i : nat) (ps : list param) : gset nat :=
  match ps with
  | [] => ∅
  | p :: ps =>
      (match grad p with Some _ => {[ i ]} | None => ∅ end) ∪ with_grad (S i) ps
  end.

Definition restored (o : optimizer) : gset nat := with_grad 0 (params o).

End WithNorm.

End SAM.

(** ** [train.py]: the epoch loop of [main] *)

Module Train.

Section WithNet.

(** The parameters of the network, one epoch of training, and validation
    (loss and metric) are parameters of the loop. *)
Variable net : Type.
Variable train_epoch : net -> nat -> net.
Variable val : net -> scalar * scalar.

(** The dictionaries handed to [torch.save]. *)
Record checkpoint : Type := {
  ck_epoch : nat;
  ck_val_loss : option scalar;
  ck_val_metrics : option scalar;
  ck_state_dict : net
}.

Record run : Type := {
  best_performance : scalar;
  epoch_from_last_improvement : nat;
  best_model : option net;
  files : gmap string checkpoint
}.

Definition path_join (output_dir file : string) : string :=
  ("results/" +:+ output_dir +:+ "/" +:+ file)%string.

(** Lines 138-139; [best_model] is not bound yet, and the directory is
    taken as it is found. *)
Definition start (fs : gmap string checkpoint) : run :=
  {| best_performance := Fin 0%Qc;
     epoch_from_last_improvement := 0;
     best_model := None;
     files := fs |}.

(** Lines 184-202. *)
Definition checkpoint_decision (output_dir : string) (epoch : nat) (n : net)
    (val_loss val_metrics : scalar) (st : run) : run :=
  let st :=
    if ge val_metrics (best_performance st) then
      let checkpoint :=
        {| ck_epoch := epoch; ck_val_loss := Some val_loss;
           ck_val_metrics := Some val_metrics; ck_state_dict := n |} in
      {| files := <[path_join output_dir "best_val_perform.pth" := checkpoint]> (files st);
         best_performance := val_metrics;
         best_model := Some n;
         epoch_from_last_improvement := 0 |}
    else
      {| files := files st;
         best_performance := best_performance st;
         best_model := best_model st;
         epoch_from_last_improvement := epoch_from_last_improvement st + 1 |} in
  let checkpoint :=
    {| ck_epoch := epoch; ck_val_loss := None; ck_val_metrics := None;
       ck_state_dict := n |} in
  {| files := <[path_join output_dir "cur_model.pth" := checkpoint]> (files st);
     best_performance := best_performance st;
     best_model := best_model st;
     epoch_from_last_improvement := epoch_from_last_improvement st |}.

(** Lines 156-202: [count] more epochs, the next one numbered [epoch]. *)
Fixpoint epochs (output_dir : string) (count epoch : nat) (n : net) (st : run)
  : net * run :=
  match count with
  | 0 => (n, st)
  | S count =>
      let n := train_epoch n epoch in
      let '(val_loss, val_metrics) := val n in
      let st := checkpoint_decision output_dir epoch n val_loss val_metrics st in
      epochs output_dir count (S epoch) n st
  end.

(** The parameters after [count] epochs, the first one numbered [epoch]. *)
Fixpoint trained (count epoch : nat) (n : net) : net :=
  match count with
  | 0 => n
  | S count => trained count (S epoch) (train_epoch n epoch)
  end.

(** The validation metric of the [k]-th epoch (from 0) of a run. *)
Definition metric (k : nat) (n : net) : scalar := (val (trained (S k) 0 n)).2.

(** The loop of [main] and the model handed to the final test (line 222),
    which is [None] when [best_model] was never bound. *)
Definition main_best_model (output_dir : string) (epoch : nat) (n : net)
    (fs : gmap string checkpoint) : option net :=
  best_model (epochs output_dir epoch 0 n (start fs)).2.

End WithNet.

End Train.

(** ** Well-formed tensors *)

Module TensorShape.

(** The entries agree with the declared shape. *)
Definition wf2 {A} (t : tensor2 A) : Prop :=
  length (data2 t) = rows2 t /\
  Forall (fun r => length r = cols2 t) (data2 t).

Definition wf3 {A} (t : tensor3 A) : Prop :=
  length (data3 t) = dim0 t /\
  Forall (fun s => length s = dim1 t /\
                   Forall (fun r => length r = dim2 t) s) (data3 t).

(** A batch of [B] sequences of no timestep, and its mask. *)
Definition empty_time3 (B D : nat) : tensor3 scalar :=
  Tensor3 B 0 D (replicate B []).

Definition empty_time2 (B : nat) : tensor2 scalar :=
  Tensor2 B 0 (replicate B []).

End TensorShape.

(** ** [models.py]: the encoder-decoder model

    [Encoder] and [Decoder] come from [annotated_transformer.py], which is
    not part of the sources at hand: they are parameters, like the layers
    above. *)

Class AnnotatedLayers `{Layers} : Type := {
  Encoder : Type;
  Encoder_init : string -> nat -> nat -> nat -> Qc -> nat -> Encoder;
  Encoder_forward :
    Encoder -> tensor3 scalar -> tensor2 scalar -> option (tensor3 scalar);
  Decoder : Type;
  Decoder_init : string -> nat -> nat -> nat -> Qc -> Decoder;
  Decoder_forward :
    Decoder -> tensor3 scalar -> tensor3 scalar -> tensor2 scalar ->
    option (tensor3 scalar)
}.

Module Stanford.
Import Models.

Section WithLayers.

Context `{AL : AnnotatedLayers}.

Record StanfordTransformerFusion : Type := {
  s_audio_prj : Projection;
  s_video_prj : Projection;
  s_audio_enc : Encoder;
  s_video_enc : Encoder;
  s_fused_dec : Decoder;
  s_gap : GAP;
  s_mlp : ShallowNN
}.

Definition StanfordTransformerFusion_init
    (video_dimension audio_dimension fused_dimension : nat)
    (w1 : list (list scalar)) (b1 : list scalar)
    (w2 : list (list scalar)) (b2 : list scalar) : StanfordTransformerFusion :=
  let feed_forward := 256 in
  let dropout := Q2Qc (1 # 10) in
  let num_layers := 1 in
  let num_heads := 1 in
  {| s_audio_prj := get_projection "audio_prj" audio_dimension fused_dimension "minimal";
     s_video_prj := get_projection "video_prj" video_dimension fused_dimension "minimal";
     s_audio_enc :=
       Encoder_init "audio_enc" fused_dimension num_heads feed_forward dropout num_layers;
     s_video_enc :=
       Encoder_init "video_enc" fused_dimension num_heads feed_forward dropout num_layers;
     s_fused_dec := Decoder_init "fused_dec" fused_dimension num_heads feed_forward dropout;
     s_gap := GAP_init;
     s_mlp := ShallowNN_init (fused_dimension * 2) (Some fused_dimension) (Some 1)
                Sigmoid dropout w1 b1 w2 b2 |}.

Definition StanfordTransformerFusion_forward (self : StanfordTransformerFusion)
    (a v : tensor3 scalar) (m : tensor2 scalar) : option squeezed :=
  a ← Projection_forward (s_audio_prj self) a;
  v ← Projection_forward (s_video_prj self) v;
  a ← Encoder_forward (s_audio_enc self) a m;
  v ← Encoder_forward (s_video_enc self) v m;
  f ← Decoder_forward (s_fused_dec self) a v m;
  out ← GAP_forward (s_gap self) f m;
  out ← ShallowNN_forward (s_mlp self) out;
  Some (squeeze_last out).

End WithLayers.

End Stanford.

(** ** [train.py]: validation *)

Module Validation.

Section WithNet.

(** The network and its forward pass on a batch (a 1-D tensor, one entry
    per sample), the labels and the size of a batch, and the loss, which
    raises on outputs it does not accept, as [nn.BCELoss] does outside
    the unit interval. *)
Variable net : Type.
Variable batch : Type.
Variable forward : net -> batch -> option (list scalar).
Variable labels_of : batch -> list scalar.
Variable size0 : batch -> nat.
Variable criteria : list scalar -> list scalar -> option scalar.

(** [AverageMeter] comes from [helpers.py], which is not part of the
    sources at hand; its methods may raise. *)
Variable AverageMeter : Type.
Variable AverageMeter_init : AverageMeter.
Variable AverageMeter_update :
  AverageMeter -> scalar -> nat -> option AverageMeter.
Variable AverageMeter_avg : AverageMeter -> option scalar.

(** The metrics, on the labels and the binary predictions. *)
Variable f1_score : list scalar -> list Z -> option scalar.
Variable recall_score : list scalar -> list Z -> option scalar.
Variable precision_score : list scalar -> list Z -> option scalar.
Variable accuracy_score : list scalar -> list Z -> option scalar.
Variable confusion_matrix : list scalar -> list Z -> option (list (list Z)).

(** The three variables the loop of [val] updates. *)
Record collected : Type := {
  total_losses : AverageMeter;
  all_y : option (list scalar);
  all_labels : option (list scalar)
}.

(** Lines 66-68. *)
Definition collected_init : collected :=
  {| total_losses := AverageMeter_init; all_y := None; all_labels := None |}.

(** Lines 70-87: the body of the loop, for one batch. *)
Definition val_batch (n : net) (st : collected) (data : batch) : option collected :=
  let labels := labels_of data in
  y ← forward n data;
  loss ← criteria y labels;
  total ← AverageMeter_update (total_losses st) loss (size0 data);
  match all_y st with
  | None =>
      Some {| total_losses := total; all_y := Some y; all_labels := Some labels |}
  | Some ys =>
      ls ← all_labels st;
      Some {| total_losses := total; all_y := Some (ys ++ y);
              all_labels := Some (ls ++ labels) |}
  end.

(** Lines 69-87: the loop. *)
Fixpoint val_loop (n : net) (st : collected) (validldr : list batch)
  : option collected :=
  match validldr with
  | [] => Some st
  | data :: validldr => st ← val_batch n st data; val_loop n st validldr
  end.

(** [(y >= 0.5).long()] on one entry. *)
Definition threshold (y : scalar) : Z :=
  if ge y (Fin (Q2Qc (1 # 2))) then 1%Z else 0%Z.

(** Lines 66-90: the meter, the binary predictions and the labels that
    line 91 onwards hand to the metrics.  [None >= 0.5] raises. *)
Definition val_collect (n : net) (validldr : list batch)
  : option (AverageMeter * list Z * list scalar) :=
  st ← val_loop n collected_init validldr;
  ys ← all_y st;
  let ys := map threshold ys in
  ls ← all_labels st;
  Some (total_losses st, ys, ls).

(** [val]. *)
Definition val (n : net) (validldr : list batch)
  : option (scalar * scalar * scalar * scalar * scalar * list (list Z)) :=
  '(total, ys, ls) ← val_collect n validldr;
  f1 ← f1_score ls ys;
  r ← recall_score ls ys;
  p ← precision_score ls ys;
  acc ← accuracy_score ls ys;
  cm ← confusion_matrix ls ys;
  avg ← AverageMeter_avg total;
  Some (avg, f1, r, p, acc, cm).

(** The meter after the batches of [validldr] with outputs [ys]: one
    update per batch, in the order of the loader, with the loss of the
    batch and its size. *)
Fixpoint metered (total : AverageMeter) (validldr : list batch)
    (ys : list (list scalar)) : option AverageMeter :=
  match validldr, ys with
  | data :: validldr, y :: ys =>
      loss ← criteria y (labels_of data);
      total ← AverageMeter_update total loss (size0 data);
      metered total validldr ys
  | _, _ => Some total
  end.

End WithNet.

End Validation.

(** ** [train.py]: the state of [main] when the loop ends *)

Module TrainLoop.
Import Train.

Section WithNet.

Variable net : Type.
Variable train_epoch : net -> nat -> net.
Variable val : net -> scalar * scalar.

Definition best_path (output_dir : string) : string :=
  path_join output_dir "best_val_perform.pth".

Definition cur_path (output_dir : string) : string :=
  path_join output_dir "cur_model.pth".

(** The state after the loop of [main] over [count] epochs. *)
Definition final (output_dir : string) (count : nat) (n : net)
    (fs : gmap string (checkpoint net)) : run net :=
  (epochs net train_epoch val output_dir count 0 n (start net fs)).2.

(** What holds of the state before epoch [e0] of a run started on [n0]. *)
Record invariant (output_dir : string) (n0 : net) (e0 : nat) (st : run net) : Prop := {
  inv_floor : ge (best_performance net st) zero = true;
  inv_dominates :
    forall k, k < e0 -> ge (metric net train_epoch val k n0) (metric net train_epoch val k n0) = true ->
              ge (best_performance net st) (metric net train_epoch val k n0) = true;
  inv_best :
    match best_model net st with
    | None =>
        best_performance net st = zero
        /\ epoch_from_last_improvement net st = e0
        /\ forall k, k < e0 -> ge (metric net train_epoch val k n0) zero = false
    | Some nb =>
        exists e,
          e < e0
          /\ files net st !! best_path output_dir
             = Some {| ck_epoch := e;
                       ck_val_loss := Some (val nb).1;
                       ck_val_metrics := Some (best_performance net st);
                       ck_state_dict := nb |}
          /\ nb = trained net train_epoch (S e) 0 n0
          /\ metric net train_epoch val e n0 = best_performance net st
          /\ epoch_from_last_improvement net st = e0 - 1 - e
          /\ forall k, e < k < e0 ->
                       ge (metric net train_epoch val k n0) (best_performance net st) = false
    end
}.

End WithNet.

End TrainLoop.

(** ** Small inputs

    One sample of two timesteps, one audio and one video feature per
    timestep; the first timestep is valid, the second is padding. *)

Module Examples.

Definition q (n : Z) : scalar := Fin (Q2Qc (inject_Z n)).

Definition audio_15 : tensor3 scalar := Tensor3 1 2 1 [[[q 1]; [q 5]]].
Definition audio_10 : tensor3 scalar := Tensor3 1 2 1 [[[q 1]; [q 0]]].
Definition video_20 : tensor3 scalar := Tensor3 1 2 1 [[[q 2]; [q 0]]].
Definition mask_10 : tensor2 scalar := Tensor2 1 2 [[q 1; q 0]].

(** Torch's functions taken as identities, and a mean-pool fusion model of
    input width 2 built on them: its first layer has the identity matrix
    for weight, its second layer adds up its two inputs. *)
Definition identity_torch : TorchNN :=
  {| GELU := fun x => x;
     Sigmoid := fun x => x;
     Dropout := fun _ _ x => x;
     Dropout3 := fun _ _ x => x;
     nnLayerNorm := unit;
     nnLayerNorm_init := fun _ _ => tt |}.

Definition fusion_2 : Models.FeatureFusion :=
  @Models.FeatureFusion_init identity_torch 2 2 1
    [[q 1; q 0]; [q 0; q 1]] [q 0; q 0] [[q 1; q 1]] [q 0].

(** Layers that hand their input back.  A fusion block is its width and
    rejects an input of another width; attention returns its query. *)
Definition plain_layers : @Layers identity_torch :=
  {| FusionBlock := nat;
     FusionBlock_init := fun _ dim _ _ => dim;
     FusionBlock_forward := fun dim x _ =>
       if decide (dim2 x = dim) then Some x else None;
     Projection := unit;
     get_projection := fun _ _ _ _ => tt;
     Projection_forward := fun _ x => Some x;
     GAP := unit;
     GAP_init := tt;
     GAP_forward := fun _ f _ => Some (sum_dim1 f);
     LayerNorm := unit;
     LayerNorm_init := fun _ _ => tt;
     LayerNorm_forward := fun _ x => Some x;
     MultiHeadedAttention := unit;
     MultiHeadedAttention_init := fun _ _ _ => tt;
     MultiHeadedAttention_forward := fun _ q _ _ _ => Some q;
     PositionwiseFeedForward := unit;
     PositionwiseFeedForward_init := fun _ _ _ _ => tt;
     PositionwiseFeedForward_forward := fun _ x => Some x;
     TransformerEncoderLayer := unit;
     TransformerEncoderLayer_init := fun _ _ _ _ _ _ _ => tt;
     TransformerEncoder := unit;
     TransformerEncoder_init := fun _ _ _ => tt;
     TransformerEncoder_forward := fun _ x _ => Some x |}.

(** One sample of one timestep with 25 audio and 136 video features. *)
Definition audio_25 : tensor3 scalar := Tensor3 1 1 25 [[replicate 25 (q 1)]].
Definition video_136 : tensor3 scalar := Tensor3 1 1 136 [[replicate 136 (q 1)]].
Definition mask_1 : tensor2 scalar := Tensor2 1 1 [[q 1]].

(** An ablation model of fused dimension 1 on the plain layers, with no
    stage switched on; its head has the identity matrix for weight. *)
Definition ablation_0 : @Models.AblationModel identity_torch plain_layers :=
  Models.AblationModel_init 1 1 1 0 "linear" false
    [q 1; q 1] [[q 1; q 0]; [q 0; q 1]] [q 0; q 0].

(** The same with the three bits set and normalization before the
    sublayers. *)
Definition ablation_7 : @Models.AblationModel identity_torch plain_layers :=
  Models.AblationModel_init 1 1 1 7 "linear" true
    [q 1; q 1] [[q 1; q 0]; [q 0; q 1]] [q 0; q 0].

Definition audio_2 : tensor3 scalar := Tensor3 1 1 1 [[[q 2]]].
Definition video_3 : tensor3 scalar := Tensor3 1 1 1 [[[q 3]]].

(** The plain layers, but for a normalization that doubles every entry,
    and the ablation model on them with the three bits set, normalizing
    before the sublayers or after the residual additions. *)
Definition double3 (x : tensor3 scalar) : tensor3 scalar :=
  Tensor3 (dim0 x) (dim1 x) (dim2 x)
    (map (map (map (fun s => add s s))) (data3 x)).

Definition doubling_layers : @Layers identity_torch :=
  {| FusionBlock := nat;
     FusionBlock_init := fun _ dim _ _ => dim;
     FusionBlock_forward := fun dim x _ =>
       if decide (dim2 x = dim) then Some x else None;
     Projection := unit;
     get_projection := fun _ _ _ _ => tt;
     Projection_forward := fun _ x => Some x;
     GAP := unit;
     GAP_init := tt;
     GAP_forward := fun _ f _ => Some (sum_dim1 f);
     LayerNorm := unit;
     LayerNorm_init := fun _ _ => tt;
     LayerNorm_forward := fun _ x => Some (double3 x);
     MultiHeadedAttention := unit;
     MultiHeadedAttention_init := fun _ _ _ => tt;
     MultiHeadedAttention_forward := fun _ q _ _ _ => Some q;
     PositionwiseFeedForward := unit;
     PositionwiseFeedForward_init := fun _ _ _ _ => tt;
     PositionwiseFeedForward_forward := fun _ x => Some x;
     TransformerEncoderLayer := unit;
     TransformerEncoderLayer_init := fun _ _ _ _ _ _ _ => tt;
     TransformerEncoder := unit;
     TransformerEncoder_init := fun _ _ _ => tt;
     TransformerEncoder_forward := fun _ x _ => Some x |}.

Definition ablation_pre : @Models.AblationModel identity_torch doubling_layers :=
  Models.AblationModel_init 1 1 1 7 "linear" true
    [q 1; q 1] [[q 1; q 0]; [q 0; q 1]] [q 0; q 0].

Definition ablation_post : @Models.AblationModel identity_torch doubling_layers :=
  Models.AblationModel_init 1 1 1 7 "linear" false
    [q 1; q 1] [[q 1; q 0]; [q 0; q 1]] [q 0; q 0].

(** An encoder-stack model of fused dimension 1 on the plain layers; its
    head adds up its two inputs. *)
Definition detr_1 : @Models.DetrTransformerFusion identity_torch plain_layers :=
  Models.DetrTransformerFusion_init 1 1 1 [[q 1; q 1]] [q 0] [[q 1]] [q 0].

End Examples.

(** ** Small runs

    Training adds one to a counter that stands for the parameters.  The
    validation metric is 5 for the parameters 2 and 1 for any other, or NaN
    throughout. *)

Module LoopExamples.

Definition step_net (n : nat) (epoch : nat) : nat := S n.

Definition peak_val (n : nat) : scalar * scalar :=
  (zero, if decide (n = 2) then Examples.q 5 else Examples.q 1).

Definition nan_val (n : nat) : scalar * scalar := (zero, NaN).

End LoopExamples.

(** ** A small validation set

    A batch is the list of its labels, the network answers every sample
    with its label, and nothing is measured. *)

Module ValExamples.

Definition echo_forward (n : unit) (data : list scalar) : option (list scalar) :=
  Some data.

Definition echo_collect (validldr : list (list scalar))
  : option (unit * list Z * list scalar) :=
  Validation.val_collect unit (list scalar) echo_forward (fun data => data)
    (fun data => length data) (fun _ _ => Some zero) unit tt
    (fun _ _ _ => Some tt) tt validldr.

(** A loss that raises on an output that is NaN. *)
Definition strict_criteria (y labels : list scalar) : option scalar :=
  if forallb (fun x => ge x x) y then Some zero else None.

Definition strict_collect (validldr : list (list scalar))
  : option (unit * list Z * list scalar) :=
  Validation.val_collect unit (list scalar) echo_forward (fun data => data)
    (fun data => length data) strict_criteria unit tt
    (fun _ _ _ => Some tt) tt validldr.

Definition two_batches : list (list scalar) :=
  [[Examples.q 1; Examples.q 0]; [NaN]].

End ValExamples.

(** ** Plain encoders and decoder

    An encoder hands its input back; the decoder concatenates the two
    modalities along the features. *)

Module StanfordExamples.

Definition plain_annotated
  : @AnnotatedLayers Examples.identity_torch Examples.plain_layers :=
  {| Encoder := unit;
     Encoder_init := fun _ _ _ _ _ _ => tt;
     Encoder_forward := fun _ x _ => Some x;
     Decoder := unit;
     Decoder_init := fun _ _ _ _ _ => tt;
     Decoder_forward := fun _ a v _ => cat3_dim2 a v |}.

Definition stanford_1
  : @Stanford.StanfordTransformerFusion Examples.identity_torch
      Examples.plain_layers plain_annotated :=
  Stanford.StanfordTransformerFusion_init 1 1 1
    [[Examples.q 1; Examples.q 1]] [Examples.q 0] [[Examples.q 1]] [Examples.q 0].

End StanfordExamples.

(** * Properties *)

(** ** Scalars *)

Module ScalarFacts.

Lemma add_zero_l x : add zero x = x.
Proof.
  destruct x as [q| | |]; simpl; try reflexivity.
  f_equal. apply Qcplus_0_l.
Qed.

Lemma add_zero_r x : add x zero = x.
Proof.
  destruct x as [q| | |]; simpl; try reflexivity.
  f_equal. apply Qcplus_0_r.
Qed.

End ScalarFacts.
Import ScalarFacts.

(** ** The checkpoint decision and the best model *)

Module TrainFacts.
Import Train.

Lemma best_path_neq_cur (output_dir : string) :
  path_join output_dir "cur_model.pth" <> path_join output_dir "best_val_perform.pth".
Proof.
  unfold path_join. intros E.
  repeat (apply String.app_inj in E). discriminate E.
Qed.

(** C6.  The checkpoint decision of an epoch: when the validation metric is
    at least the best seen so far, the parameters are saved as the best
    checkpoint and kept as the best model, the best value becomes the
    metric and the stall counter is reset; otherwise the counter goes up by
    one and the best checkpoint, model and value are untouched.  In both
    cases the current checkpoint holds the epoch's parameters. *)
Theorem checkpoint_decision_spec (net : Type) (output_dir : string)
    (epoch : nat) (n : net) (val_loss val_metrics : scalar) (st : run net) :
  let st' := checkpoint_decision net output_dir epoch n val_loss val_metrics st in
  let best := path_join output_dir "best_val_perform.pth" in
  let cur := path_join output_dir "cur_model.pth" in
  (if ge val_metrics (best_performance net st)
   then files net st' !! best =
          Some {| ck_epoch := epoch; ck_val_loss := Some val_loss;
                  ck_val_metrics := Some val_metrics; ck_state_dict := n |}
        /\ best_model net st' = Some n
        /\ best_performance net st' = val_metrics
        /\ epoch_from_last_improvement net st' = 0
   else files net st' !! best = files net st !! best
        /\ best_model net st' = best_model net st
        /\ best_performance net st' = best_performance net st
        /\ epoch_from_last_improvement net st' =
             epoch_from_last_improvement net st + 1)
  /\ files net st' !! cur =
       Some {| ck_epoch := epoch; ck_val_loss := None;
               ck_val_metrics := None; ck_state_dict := n |}.
Proof.
  intros st' best cur. subst st' best cur. unfold checkpoint_decision.
  pose proof (best_path_neq_cur output_dir) as Hne.
  destruct (ge val_metrics (best_performance net st)); simpl;
    rewrite lookup_insert_eq; (split; [|reflexivity]);
    rewrite lookup_insert_ne by exact Hne.
  - rewrite lookup_insert_eq. auto.
  - auto.
Qed.

Section Loop.

Variable net : Type.
Variable train_epoch : net -> nat -> net.
Variable val : net -> scalar * scalar.

Lemma ge_antisym (x y : scalar) : ge x y = true -> ge y x = true -> x = y.
Proof.
  destruct x as [a| | |], y as [b| | |]; simpl; try discriminate; try reflexivity.
  intros H1 H2. apply bool_decide_eq_true_1 in H1, H2.
  f_equal. apply Qcle_antisym; assumption.
Qed.

Lemma decision_keeps_best_model output_dir epoch n vl vm (st : run net) :
  is_Some (best_model net st) ->
  is_Some (best_model net (checkpoint_decision net output_dir epoch n vl vm st)).
Proof.
  intros H. unfold checkpoint_decision.
  destruct (ge vm (best_performance net st)); simpl; eauto.
Qed.

Lemma epochs_keep_best_model output_dir count :
  forall epoch n (st : run net),
    is_Some (best_model net st) ->
    is_Some (best_model net (epochs net train_epoch val output_dir count epoch n st).2).
Proof.
  induction count as [|count IH]; intros epoch n st H; simpl; [exact H|].
  destruct (val (train_epoch n epoch)) as [vl vm].
  apply IH, decision_keeps_best_model, H.
Qed.

Lemma epochs_all_ties output_dir count :
  forall epoch n (st : run net),
    best_performance net st = zero ->
    (forall k, k < S count -> (val (trained net train_epoch (S k) epoch n)).2 = zero) ->
    best_model net (epochs net train_epoch val output_dir (S count) epoch n st).2
    = Some (trained net train_epoch (S count) epoch n).
Proof.
  induction count as [|count IH]; intros epoch n st Hb Hm.
  - specialize (Hm 0 ltac:(lia)). simpl in *.
    destruct (val (train_epoch n epoch)) as [vl vm]. simpl in Hm. subst vm.
    unfold checkpoint_decision. rewrite Hb. reflexivity.
  - pose proof (Hm 0 ltac:(lia)) as H0.
    change (epochs net train_epoch val output_dir (S (S count)) epoch n st)
      with (let n' := train_epoch n epoch in
            let '(vl, vm) := val n' in
            epochs net train_epoch val output_dir (S count) (S epoch) n'
              (checkpoint_decision net output_dir epoch n' vl vm st)).
    change (trained net train_epoch (S (S count)) epoch n)
      with (trained net train_epoch (S count) (S epoch) (train_epoch n epoch)).
    simpl in H0. cbv zeta.
    destruct (val (train_epoch n epoch)) as [vl vm]. simpl in H0. subst vm.
    apply IH.
    + unfold checkpoint_decision. rewrite Hb. reflexivity.
    + intros k Hk. apply (Hm (S k)). lia.
Qed.

End Loop.

(** C7, as amended.  In a run of at least one epoch whose first validation
    metric is at least the initial best of 0.0, the best model is bound when
    the loop ends.  When moreover no epoch's metric exceeds 0.0 while none
    is below it, every epoch ties with the best so far, and the best model
    is made of the parameters of the last epoch. *)
Theorem best_model_defined (net : Type) (train_epoch : net -> nat -> net)
    (val : net -> scalar * scalar) (output_dir : string) (count : nat)
    (n : net) (fs : gmap string (checkpoint net))
    (Hfirst : ge (metric net train_epoch val 0 n) zero = true) :
  is_Some (main_best_model net train_epoch val output_dir (S count) n fs)
  /\ ((forall k, k <= count ->
         ge (metric net train_epoch val k n) zero = true /\
         ge zero (metric net train_epoch val k n) = true) ->
      main_best_model net train_epoch val output_dir (S count) n fs
      = Some (trained net train_epoch (S count) 0 n)).
Proof.
  unfold main_best_model. split.
  - simpl. unfold metric in Hfirst. simpl in Hfirst.
    destruct (val (train_epoch n 0)) as [vl vm]. simpl in Hfirst.
    apply epochs_keep_best_model.
    unfold checkpoint_decision, start. simpl.
    change (Fin 0%Qc) with zero. rewrite Hfirst. simpl. eauto.
  - intros Hall. apply epochs_all_ties; [reflexivity|].
    intros k Hk. destruct (Hall k ltac:(lia)) as [H1 H2].
    apply ge_antisym; assumption.
Qed.

(** A run of three epochs in which training adds one to a counter and the
    metric is 0.0 throughout. *)
Lemma best_model_defined_witness :
  main_best_model nat (fun n _ => S n) (fun _ => (zero, zero)) "run" 3 0 ∅
  = Some 3.
Proof.
  apply (best_model_defined nat (fun n _ => S n) (fun _ => (zero, zero))
           "run" 2 0 ∅ eq_refl).
  intros k Hk. split; reflexivity.
Defined.

(** C7, as stated, fails: two epochs whose metrics are both 0.0 never
    exceed the initial best, and the best model is the second epoch's
    (parameters 2), not the first epoch's (parameters 1). *)
Lemma best_model_not_first_epoch :
  let train_epoch := fun (n : nat) (_ : nat) => S n in
  let val := fun _ : nat => (zero, zero) in
  metric nat train_epoch val 0 0 = zero /\
  metric nat train_epoch val 1 0 = zero /\
  main_best_model nat train_epoch val "run" 2 0 ∅ = Some 2 /\
  main_best_model nat train_epoch val "run" 2 0 ∅ <> Some (train_epoch 0 0).
Proof.
  cbv zeta. repeat split; try reflexivity.
  intros E. discriminate E.
Qed.

End TrainFacts.

(** ** The SAM round trip *)

Module SAMFacts.
Import SAM.

Lemma snapshot_lookup_lt (ps : list param) :
  forall i j (st : gmap nat (list scalar)),
    j < i -> snapshot i ps st !! j = st !! j.
Proof.
  induction ps as [|p ps IH]; intros i j st Hlt; simpl; [reflexivity|].
  rewrite IH by lia.
  destruct (grad p); [|reflexivity].
  apply lookup_insert_ne. lia.
Qed.

Lemma restore_from_snapshot (scale : scalar) (ps : list param) :
  forall i (st : gmap nat (list scalar)),
    restore_from (snapshot i ps st) i (map (perturb scale) ps) = Some ps.
Proof.
  induction ps as [|p ps IH]; intros i st; simpl; [reflexivity|].
  destruct p as [v [g|]]; unfold perturb at 1; simpl.
  - rewrite snapshot_lookup_lt by lia. rewrite lookup_insert_eq. simpl.
    rewrite IH. reflexivity.
  - rewrite IH. reflexivity.
Qed.

Lemma with_grad_perturb (scale : scalar) (ps : list param) :
  forall i, with_grad i (map (perturb scale) ps) = with_grad i ps.
Proof.
  induction ps as [|p ps IH]; intros i; simpl; [reflexivity|].
  rewrite IH. destruct p as [v [g|]]; reflexivity.
Qed.

Lemma dom_snapshot (ps : list param) :
  forall i (st : gmap nat (list scalar)),
    dom (snapshot i ps st) = dom st ∪ with_grad i ps.
Proof.
  induction ps as [|p ps IH]; intros i st; simpl.
  - set_solver.
  - rewrite IH. destruct (grad p); [rewrite dom_insert_L|]; set_solver.
Qed.

(** C4.  The ascent step followed at once by the restoration gives back
    the parameters as they were before the ascent, values and gradients
    alike, whatever the gradients, the radius and the gradient norm; and
    the positions the ascent perturbed are exactly those the restoration
    wrote. *)
Theorem first_step_restore (grad_norm : list param -> scalar) (o : optimizer) :
  params <$> restore (first_step grad_norm o) = Some (params o)
  /\ perturbed o = restored (first_step grad_norm o).
Proof.
  split.
  - unfold restore, first_step. simpl.
    rewrite restore_from_snapshot. reflexivity.
  - unfold perturbed, restored, first_step. simpl.
    rewrite dom_snapshot, with_grad_perturb. set_solver.
Qed.

(** The descent step that follows an ascent at once applies the base
    optimizer's update to the parameters as they were before the ascent. *)
Lemma first_step_second_step (grad_norm : list param -> scalar)
    (base_step : list param -> list param) (o : optimizer) :
  params <$> second_step base_step (first_step grad_norm o)
  = Some (base_step (params o)).
Proof.
  unfold second_step, restore, first_step. simpl.
  rewrite restore_from_snapshot. reflexivity.
Qed.

End SAMFacts.

(** ** Pooling by the mask *)

Module PoolingFacts.
Import Models PoolingSpec.

Lemma broadcast_dim_1_r (n : nat) : broadcast_dim n 1 = Some n.
Proof.
  unfold broadcast_dim. repeat case_decide; congruence.
Qed.

Lemma broadcast_dim_refl (n : nat) : broadcast_dim n n = Some n.
Proof. unfold broadcast_dim. case_decide; congruence. Qed.

Lemma div_unsqueeze1_cols (x y : tensor2 scalar) (c : list scalar) :
  Tensor.div x (unsqueeze1 c) = Some y -> cols2 y = cols2 x.
Proof.
  unfold Tensor.div. simpl. rewrite broadcast_dim_1_r.
  destruct (broadcast_dim (rows2 x) (length c)); simpl; [|discriminate].
  intros E. injection E as <-. reflexivity.
Qed.

Lemma mean_pool_cols (a v : tensor3 scalar) (m x : tensor2 scalar) :
  mean_pool a v m = Some x -> cols2 x = dim2 a + dim2 v.
Proof.
  unfold mean_pool.
  destruct (Tensor.div (sum_dim1 a) _) as [fa|] eqn:Ea; simpl; [|discriminate].
  destruct (Tensor.div (sum_dim1 v) _) as [fv|] eqn:Ev; simpl; [|discriminate].
  apply div_unsqueeze1_cols in Ea, Ev. simpl in Ea, Ev.
  unfold cat2_dim1. case_decide; [|discriminate].
  intros E. injection E as <-. simpl. congruence.
Qed.

(** *** The divisor *)




(** *** The sum over time and the masked sum *)

(** Entry-wise conditions on concrete tensors. *)
Ltac pointwise :=
  repeat constructor;
  try (intros H; vm_compute in H |- *; first [discriminate H | reflexivity]).

Lemma vadd_zero_l (D : nat) (acc : list scalar) :
  length acc <= D -> vadd (replicate D zero) acc = acc.
Proof.
  revert D. induction acc as [|x acc IH]; intros D HD.
  - destruct D; reflexivity.
  - destruct D as [|D]; simpl in HD; [lia|].
    change (vadd (replicate (S D) zero) (x :: acc))
      with (add zero x :: vadd (replicate D zero) acc).
    f_equal; [apply add_zero_l|apply IH; lia].
Qed.

Lemma length_sum_sample (D : nat) (s : list (list scalar)) :
  length (foldr vadd (replicate D zero) s) <= D.
Proof.
  induction s as [|r s IH]; simpl.
  - rewrite length_replicate. lia.
  - unfold vadd at 1. rewrite length_zip_with. lia.
Qed.

Lemma sum_sample_zero_padded (D : nat) (s : list (list scalar))
    (mrow : list scalar) :
  Forall2 (fun r mt => is_zero mt = true -> r = replicate D zero) s mrow ->
  foldr vadd (replicate D zero) s = masked_sum_sample D s mrow.
Proof.
  unfold masked_sum_sample.
  induction 1 as [|r mt s mrow Hr Hs IH]; simpl; [reflexivity|].
  rewrite <- IH. destruct (is_zero mt) eqn:Hz; [|reflexivity].
  rewrite Hr by reflexivity. apply vadd_zero_l, length_sum_sample.
Qed.

Lemma masked_sum_sample_agree (D : nat) (s s' : list (list scalar))
    (mrow : list scalar) :
  Forall3 (fun r r' mt => is_zero mt = false -> r = r') s s' mrow ->
  masked_sum_sample D s mrow = masked_sum_sample D s' mrow.
Proof.
  unfold masked_sum_sample.
  induction 1 as [|r r' mt s s' mrow Hr Hs IH]; simpl; [reflexivity|].
  rewrite IH. destruct (is_zero mt) eqn:Hz; [reflexivity|].
  rewrite Hr by reflexivity. reflexivity.
Qed.

Lemma sum_dim1_zero_padded (x : tensor3 scalar) (m : tensor2 scalar) :
  zero_padded x m -> sum_dim1 x = masked_sum x m.
Proof.
  unfold zero_padded, sum_dim1, masked_sum. intros H. f_equal.
  induction H as [|s mrow xs ms Hs Hxs IH]; simpl; [reflexivity|].
  rewrite IH. f_equal. apply sum_sample_zero_padded, Hs.
Qed.

Lemma masked_sum_agree (x x' : tensor3 scalar) (m : tensor2 scalar) :
  agree_on_valid x x' m -> masked_sum x m = masked_sum x' m.
Proof.
  intros (H0 & H1 & H2 & H). unfold masked_sum. rewrite <- H0, <- H2. f_equal.
  induction H as [|s s' mrow xs xs' ms Hs Hxs IH]; simpl; [reflexivity|].
  rewrite IH. f_equal. apply masked_sum_sample_agree, Hs.
Qed.

(** C2, as amended.  The sum of the pooling runs over all timesteps.  On an
    input whose features are zero at the invalid timesteps it is the masked
    sum, so that the output is the one that masked pooling gives on any
    input that agrees with it at the valid timesteps. *)
Theorem FeatureFusion_forward_zero_padded (net : FeatureFusion)
    (a a' v v' : tensor3 scalar) (m : tensor2 scalar)
    (Ha : zero_padded a m) (Hv : zero_padded v m)
    (Haa : agree_on_valid a a' m) (Hvv : agree_on_valid v v' m) :
  FeatureFusion_forward net a v m = FeatureFusion_forward_masked net a' v' m.
Proof.
  unfold FeatureFusion_forward, FeatureFusion_forward_masked.
  unfold mean_pool, mean_pool_masked_sum.
  rewrite (sum_dim1_zero_padded a m Ha), (sum_dim1_zero_padded v m Hv).
  rewrite (masked_sum_agree a a' m Haa), (masked_sum_agree v v' m Hvv).
  reflexivity.
Qed.

Lemma FeatureFusion_forward_zero_padded_witness :
  FeatureFusion_forward Examples.fusion_2
    Examples.audio_10 Examples.video_20 Examples.mask_10
  = FeatureFusion_forward_masked Examples.fusion_2
      Examples.audio_15 Examples.video_20 Examples.mask_10.
Proof.
  apply (FeatureFusion_forward_zero_padded Examples.fusion_2
           Examples.audio_10 Examples.audio_15
           Examples.video_20 Examples.video_20 Examples.mask_10).
  - pointwise.
  - pointwise.
  - repeat split; pointwise.
  - repeat split; pointwise.
Defined.

(** C2, as stated, fails: two inputs with one mask, equal at the valid
    timestep, and different at the padded one (5 against 0) are pooled to
    different vectors and get different outputs. *)
Lemma FeatureFusion_forward_reads_padding :
  agree_on_valid Examples.audio_15 Examples.audio_10 Examples.mask_10 /\
  mean_pool Examples.audio_15 Examples.video_20 Examples.mask_10
    = Some (Tensor2 1 2 [[Examples.q 6; Examples.q 2]]) /\
  mean_pool Examples.audio_10 Examples.video_20 Examples.mask_10
    = Some (Tensor2 1 2 [[Examples.q 1; Examples.q 2]]) /\
  FeatureFusion_forward Examples.fusion_2
    Examples.audio_15 Examples.video_20 Examples.mask_10
    = Some (Squeezed1 [Examples.q 8]) /\
  FeatureFusion_forward Examples.fusion_2
    Examples.audio_10 Examples.video_20 Examples.mask_10
    = Some (Squeezed1 [Examples.q 3]) /\
  Examples.q 8 <> Examples.q 3.
Proof.
  split; [|repeat split; try (vm_compute; reflexivity)].
  - repeat split; pointwise.
  - intros E. discriminate E.
Qed.



(** *** The width of the head of the shallow-attention model *)

Lemma ShallowNN_forward_cols (net : ShallowNN) (x y : tensor2 scalar) :
  ShallowNN_forward net x = Some y -> cols2 x = in_features (fc1 net).
Proof.
  unfold ShallowNN_forward, Linear_forward.
  case_decide as Hc; [intros _; exact Hc|discriminate].
Qed.

(** C10.  The constructor of the shallow-attention model does not use
    [fused_dimension], and gives the head an input width of 161: a forward
    pass that returns has [audio_dimension + video_dimension = 161].  A
    fusion block is taken to return sequences of the width it was built
    with. *)
Theorem TransformerFusion_forward_161 `{L : Layers}
    (Hblock : forall tag dim h r x m y,
        FusionBlock_forward (FusionBlock_init tag dim h r) x m = Some y ->
        dim2 y = dim)
    (video_dimension audio_dimension fused_dimension : nat)
    (w1 : list (list scalar)) (b1 : list scalar)
    (w2 : list (list scalar)) (b2 : list scalar)
    (a v : tensor3 scalar) (m : tensor2 scalar) (out : squeezed)
    (Hfwd : TransformerFusion_forward
              (TransformerFusion_init video_dimension audio_dimension
                 fused_dimension w1 b1 w2 b2) a v m = Some out) :
  audio_dimension + video_dimension = 161
  /\ in_features (fc1 (tf_fc (TransformerFusion_init video_dimension
                                audio_dimension fused_dimension w1 b1 w2 b2))) = 161
  /\ forall fused_dimension',
       TransformerFusion_init video_dimension audio_dimension
         fused_dimension' w1 b1 w2 b2
       = TransformerFusion_init video_dimension audio_dimension
           fused_dimension w1 b1 w2 b2.
Proof.
  split; [|split; [reflexivity|intros; reflexivity]].
  unfold TransformerFusion_forward in Hfwd. simpl in Hfwd.
  destruct (FusionBlock_forward _ a m) as [a'|] eqn:Ea; simpl in Hfwd; [|discriminate].
  destruct (FusionBlock_forward _ v m) as [v'|] eqn:Ev; simpl in Hfwd; [|discriminate].
  destruct (mean_pool a' v' m) as [x|] eqn:Ex; simpl in Hfwd; [|discriminate].
  destruct (ShallowNN_forward _ x) as [y|] eqn:Ey; simpl in Hfwd; [|discriminate].
  apply Hblock in Ea, Ev. apply mean_pool_cols in Ex.
  apply ShallowNN_forward_cols in Ey. simpl in Ey. lia.
Qed.

Lemma plain_block_width tag dim h r x m y :
  @FusionBlock_forward _ Examples.plain_layers
    (@FusionBlock_init _ Examples.plain_layers tag dim h r) x m = Some y ->
  dim2 y = dim.
Proof.
  simpl. case_decide; [|discriminate].
  intros E. injection E as <-. assumption.
Qed.

Lemma TransformerFusion_forward_161_witness : 25 + 136 = 161.
Proof.
  refine (proj1 (@TransformerFusion_forward_161 Examples.identity_torch
                   Examples.plain_layers plain_block_width 136 25 128
                   (replicate 128 (replicate 161 (Examples.q 0)))
                   (replicate 128 (Examples.q 0))
                   [replicate 128 (Examples.q 0)] [Examples.q 0]
                   Examples.audio_25 Examples.video_136 Examples.mask_1
                   (Squeezed1 [Examples.q 0]) _)).
  vm_compute. reflexivity.
Defined.

End PoolingFacts.

(** ** The ablation model *)

Module AblationFacts.
Import Models AblationSpec AblationStages.

Section WithLayers.

Context `{L : Layers}.

(** Clearing or setting bit 2 leaves the two other switches as they are. *)
Lemma self_switch_add4 (config_num : Z) :
  ((config_num + 4) `mod` 2 = config_num `mod` 2)%Z.
Proof. apply (Z_mod_plus_full config_num 2 2). Qed.

Lemma cross_switch_add4 (config_num : Z) :
  (((config_num + 4) `div` 2) `mod` 2 = (config_num `div` 2) `mod` 2)%Z.
Proof.
  change 4%Z with (2 * 2)%Z.
  rewrite Z.div_add by lia. apply (Z_mod_plus_full _ 1 2).
Qed.

Lemma fused_switch_add4 (config_num : Z) :
  (((config_num + 4) `div` 4) `mod` 2 = 1 - (config_num `div` 4) `mod` 2)%Z.
Proof.
  replace (config_num + 4)%Z with (config_num + 1 * 4)%Z by lia.
  rewrite Z.div_add by lia.
  pose proof (Z.mod_pos_bound (config_num `div` 4) 2 ltac:(lia)).
  rewrite Z.add_mod by lia.
  destruct (decide ((config_num `div` 4) `mod` 2 = 0)%Z) as [->|]; [reflexivity|].
  replace ((config_num `div` 4) `mod` 2)%Z with 1%Z by lia. reflexivity.
Qed.

End WithLayers.

(** Evidence for C3.  Bit 2 of the configuration gates nothing: setting it
    flips [enable_fused_attention], and the forward pass, logits and record
    of normalization calls alike, stays the same. *)
Theorem AblationModel_forward_ignores_bit2 `{L : Layers}
    (video_dimension audio_dimension fused_dimension : nat) (config_num : Z)
    (project_type : string) (pre_norm : bool)
    (cls : list scalar) (hw : list (list scalar)) (hb : list scalar)
    (a v : tensor3 scalar) (m : tensor2 scalar) :
  let off := AblationModel_init video_dimension audio_dimension fused_dimension
               config_num project_type pre_norm cls hw hb in
  let on := AblationModel_init video_dimension audio_dimension fused_dimension
              (config_num + 4) project_type pre_norm cls hw hb in
  enable_fused_attention on = (1 - enable_fused_attention off)%Z
  /\ AblationModel_forward on a v m = AblationModel_forward off a v m.
Proof.
  intros off on. subst off on. split.
  - apply fused_switch_add4.
  - unfold AblationModel_forward, AblationModel_init; simpl.
    rewrite self_switch_add4, cross_switch_add4. reflexivity.
Qed.

(** At [config_num = 0] the pass still runs the fused stage: on the plain
    layers, where attention returns its query, it quadruples the
    classification token, which a pass that leaves the stage out hands to
    the head as it is. *)
Lemma AblationModel_config0_runs_fused_stage :
  enable_fused_attention Examples.ablation_0 = 0%Z /\
  AblationModel_logits Examples.ablation_0
    Examples.audio_2 Examples.video_3 Examples.mask_1
    = Some (Tensor2 1 2 [[Examples.q 4; Examples.q 4]]) /\
  fst <$> AblationModel_forward_gated Examples.ablation_0
            Examples.audio_2 Examples.video_3 Examples.mask_1 []
    = Some (Tensor2 1 2 [[Examples.q 1; Examples.q 1]]).
Proof.
  repeat split; vm_compute; reflexivity.
Qed.

(** *** The record of normalization calls *)

Section Logs.

Context `{L : Layers}.

Lemma logs_ret {A} (x : A) : logs (mret x) [].
Proof.
  intros t y t' E. injection E as _ <-. symmetry. apply app_nil_r.
Qed.

Lemma logs_lift {A} (o : option A) : logs (lift o) [].
Proof.
  intros t y t' E. unfold lift in E. destruct o; [|discriminate].
  injection E as _ <-. symmetry. apply app_nil_r.
Qed.

Lemma logs_tell (e : norm_call) : logs (tell e) [e].
Proof. intros t y t' E. injection E as _ <-. reflexivity. Qed.

Lemma logs_bind {A B} (c : Fwd A) (k : A -> Fwd B) (l1 l2 : list norm_call) :
  logs c l1 -> (forall x, logs (k x) l2) -> logs (c ≫= k) (l1 ++ l2).
Proof.
  intros Hc Hk t y t' E. unfold mbind, Fwd_bind in E.
  destruct (c t) as [[x t1]|] eqn:Ec; [|discriminate].
  apply Hc in Ec. apply Hk in E. subst. symmetry. apply app_assoc.
Qed.

Lemma logs_eq {A} (c : Fwd A) (l l' : list norm_call) :
  logs c l -> l = l' -> logs c l'.
Proof. intros Hl <-. exact Hl. Qed.

Lemma logs_maybe_normalize (self : AblationModel) (i : nat)
    (x : tensor3 scalar) (pre : bool) :
  logs (maybe_normalize self i x pre)
       (if bool_decide (pre_norm self = pre) then [(i, pre)] else []).
Proof.
  unfold maybe_normalize. destruct (bool_decide (pre_norm self = pre)).
  - eapply logs_eq.
    + eapply logs_bind; [apply logs_lift|intros norm].
      eapply logs_bind; [apply logs_tell|intros _]. apply logs_lift.
    + reflexivity.
  - apply logs_ret.
Qed.

End Logs.

(** One step through a pass: a bind, a pair taken apart, or a leaf. *)
Ltac logs_step :=
  first
    [ apply logs_maybe_normalize
    | apply logs_lift
    | apply logs_ret
    | eapply logs_bind; [|intros ?]
    | match goal with x : (_ * _)%type |- _ => destruct x end ].

Ltac logs_of_pre_norm self :=
  eapply logs_eq; [repeat logs_step|];
  destruct (pre_norm self); reflexivity.

Section Stages.

Context `{L : Layers}.

Lemma logs_self_attention_stage (self : AblationModel)
    (a v : tensor3 scalar) (m : tensor2 scalar) :
  logs (self_attention_stage self a v m)
       (map (fun i => (i, pre_norm self)) [0; 1; 2; 3]).
Proof. unfold self_attention_stage. logs_of_pre_norm self. Qed.

Lemma logs_cross_attention_stage (self : AblationModel)
    (a v : tensor3 scalar) (m : tensor2 scalar) :
  logs (cross_attention_stage self a v m)
       (map (fun i => (i, pre_norm self)) [4; 5]).
Proof. unfold cross_attention_stage. logs_of_pre_norm self. Qed.

Lemma logs_fused_stage (self : AblationModel)
    (f : tensor3 scalar) (m : tensor2 scalar) :
  logs (fused_stage self f m) (map (fun i => (i, pre_norm self)) [6; 7]).
Proof. unfold fused_stage. logs_of_pre_norm self. Qed.

Lemma logs_project (self : AblationModel) (a v : tensor3 scalar) :
  logs (project self a v) [].
Proof.
  unfold project. destruct (project_type_conv1d self);
    (eapply logs_eq; [repeat logs_step|reflexivity]).
Qed.

Lemma logs_forward (self : AblationModel)
    (a v : tensor3 scalar) (m : tensor2 scalar) :
  logs (AblationModel_forward self a v m)
       (map (fun i => (i, pre_norm self)) (norm_indices self)).
Proof.
  unfold AblationModel_forward, norm_indices.
  rewrite !map_app.
  eapply logs_eq.
  - eapply logs_bind; [apply logs_project|intros [a1 v1]].
    eapply logs_bind; [|intros [a2 v2]].
    { instantiate (1 := map (fun i => (i, pre_norm self))
                          (if decide (enable_self_attention self <> 0%Z)
                           then [0; 1; 2; 3] else [])).
      case_decide; [apply logs_self_attention_stage|apply logs_ret]. }
    eapply logs_bind; [|intros [f1 m1]].
    { instantiate (1 := map (fun i => (i, pre_norm self))
                          (if decide (enable_cross_attention self <> 0%Z)
                           then [4; 5] else [])).
      case_decide; [apply logs_cross_attention_stage|apply logs_ret]. }
    eapply logs_bind; [apply logs_lift|intros [f2 m2]].
    eapply logs_bind; [apply logs_fused_stage|intros f3].
    eapply logs_bind; [apply logs_lift|intros out].
    eapply logs_bind; [apply logs_lift|intros out']. apply logs_ret.
  - repeat case_decide; reflexivity.
Qed.

End Stages.

(** *** The values of the sublayers *)

(** The calls on the way through a stage taken apart in turn. *)
Ltac stage_cases :=
  repeat (simpl;
          match goal with
          | |- context [norms ?s !! ?i] => destruct (norms s !! i) eqn:?
          | |- context [LayerNorm_forward ?n ?x] =>
              destruct (LayerNorm_forward n x) eqn:?
          | |- context [MultiHeadedAttention_forward ?l ?q ?k ?v ?m] =>
              destruct (MultiHeadedAttention_forward l q k v m) eqn:?
          | |- context [PositionwiseFeedForward_forward ?l ?x] =>
              destruct (PositionwiseFeedForward_forward l x) eqn:?
          | |- context [add3 ?x ?y] => destruct (add3 x y) eqn:?
          end);
  simpl; try reflexivity.

Ltac stage_value self :=
  unfold residual_sublayer, maybe_normalize, mbind, Fwd_bind, lift, tell,
         mret, Fwd_ret;
  destruct (pre_norm self); stage_cases.

Section Values.

Context `{L : Layers}.

Lemma value_self_attention_stage (self : AblationModel)
    (a v : tensor3 scalar) (m : tensor2 scalar) (t : list norm_call) :
  fst <$> self_attention_stage self a v m t
  = self_attention_sublayers self a v m.
Proof.
  unfold self_attention_stage, self_attention_sublayers. stage_value self.
Qed.

Lemma value_cross_attention_stage (self : AblationModel)
    (a v : tensor3 scalar) (m : tensor2 scalar) (t : list norm_call) :
  fst <$> cross_attention_stage self a v m t
  = cross_attention_sublayers self a v m.
Proof.
  unfold cross_attention_stage, cross_attention_sublayers. stage_value self.
Qed.

Lemma value_fused_stage (self : AblationModel)
    (f : tensor3 scalar) (m : tensor2 scalar) (t : list norm_call) :
  fst <$> fused_stage self f m t = fused_sublayers self f m.
Proof. unfold fused_stage, fused_sublayers. stage_value self. Qed.

(** The value of a bind, when the value of its first part does not depend
    on the record. *)
Lemma value_bind {A B} (c : Fwd A) (k : A -> Fwd B)
    (c' : option A) (k' : A -> option B) (t : list norm_call) :
  fst <$> c t = c' ->
  (forall x t1, fst <$> k x t1 = k' x) ->
  fst <$> (c ≫= k) t = c' ≫= k'.
Proof.
  intros Hc Hk. unfold mbind at 1. unfold Fwd_bind.
  destruct (c t) as [[x t1]|]; simpl in Hc; subst c'; simpl; [apply Hk|].
  reflexivity.
Qed.

Lemma value_lift {A} (o : option A) (t : list norm_call) :
  fst <$> lift o t = o.
Proof. unfold lift. destruct o; reflexivity. Qed.

Lemma value_forward (self : AblationModel)
    (a v : tensor3 scalar) (m : tensor2 scalar) :
  AblationModel_logits self a v m = AblationModel_logits_sublayers self a v m.
Proof.
  unfold AblationModel_logits, AblationModel_forward,
         AblationModel_logits_sublayers.
  apply value_bind; [reflexivity|intros [a1 v1] t1].
  apply value_bind;
    [case_decide; [apply value_self_attention_stage|reflexivity]|].
  intros [a2 v2] t2.
  apply value_bind;
    [case_decide; [apply value_cross_attention_stage|reflexivity]|].
  intros [a3 v3] t3.
  apply value_bind; [apply value_lift|intros [f0 m'] t4].
  apply value_bind; [apply value_fused_stage|intros f1 t5].
  apply value_bind; [apply value_lift|intros o1 t6].
  unfold mbind, Fwd_bind, lift, mret, Fwd_ret.
  destruct (Linear_forward (head self) o1); reflexivity.
Qed.

End Values.

(** C8.  The logits of a pass are those of the pass through the residual
    sublayers, each of which applies its normalization layer to the input
    of the sublayer when [pre_norm] is true and to the sum of the residual
    addition when it is false.  In a pass that returns, the normalization
    layer of every sublayer that ran was called once and no other was
    called, in the order of the sublayers; and the call that reached it is
    the one placed before the sublayer when [pre_norm] is true, the one
    placed after the residual addition when it is false.  [pre_norm] is a
    field of the model. *)
Theorem AblationModel_one_norm_per_sublayer `{L : Layers}
    (self : AblationModel) (a v : tensor3 scalar) (m : tensor2 scalar)
    (calls : list norm_call)
    (Hpass : AblationModel_norm_calls self a v m = Some calls) :
  calls = map (fun i => (i, pre_norm self)) (norm_indices self)
  /\ NoDup (norm_indices self)
  /\ (forall i, i ∈ norm_indices self ->
        length (filter (fun c => c.1 = i) calls) = 1)
  /\ AblationModel_logits self a v m
     = AblationModel_logits_sublayers self a v m.
Proof.
  unfold AblationModel_norm_calls in Hpass.
  destruct (AblationModel_forward self a v m []) as [[out t]|] eqn:E;
    [|discriminate].
  apply logs_forward in E. simpl in E, Hpass. injection Hpass as <-. subst t.
  split; [reflexivity|].
  cut (NoDup (norm_indices self)
       /\ forall i, i ∈ norm_indices self ->
            length (filter (fun c => c.1 = i)
                      (map (fun i => (i, pre_norm self)) (norm_indices self)))
            = 1).
  { intros [Hnodup Honce]. split; [exact Hnodup|].
    split; [exact Honce|apply value_forward]. }
  unfold norm_indices.
  repeat case_decide; simpl; (split; [repeat constructor; set_solver|]);
    intros i Hi; repeat (apply elem_of_cons in Hi as [->|Hi]);
    try reflexivity; apply elem_of_nil in Hi; destruct Hi.
Qed.

Lemma AblationModel_one_norm_per_sublayer_witness :
  let calls := [(0, true); (1, true); (2, true); (3, true);
                (4, true); (5, true); (6, true); (7, true)] in
  calls = map (fun i => (i, pre_norm Examples.ablation_pre))
              (norm_indices Examples.ablation_pre)
  /\ length (filter (fun c => c.1 = 6) calls) = 1
  /\ AblationModel_logits Examples.ablation_pre
       Examples.audio_2 Examples.video_3 Examples.mask_1
     = AblationModel_logits_sublayers Examples.ablation_pre
         Examples.audio_2 Examples.video_3 Examples.mask_1.
Proof.
  intros calls.
  destruct (AblationModel_one_norm_per_sublayer Examples.ablation_pre
              Examples.audio_2 Examples.video_3 Examples.mask_1 calls)
    as (Hcalls & _ & Honce & Hvalue).
  - vm_compute. reflexivity.
  - split; [exact Hcalls|]. split; [|exact Hvalue].
    apply Honce. vm_compute. set_solver.
Defined.

(** Where the normalization is placed shows in the logits.  With a
    normalization that doubles its input and sublayers that hand theirs
    back, a residual sublayer triples its input when the normalization
    comes first and quadruples it when it comes last: the classification
    token 1 leaves the two fused sublayers as 9 or as 16. *)
Lemma AblationModel_norm_placement :
  AblationModel_logits Examples.ablation_pre
    Examples.audio_2 Examples.video_3 Examples.mask_1
  = Some (Tensor2 1 2 [[Examples.q 9; Examples.q 9]])
  /\ AblationModel_logits Examples.ablation_post
       Examples.audio_2 Examples.video_3 Examples.mask_1
     = Some (Tensor2 1 2 [[Examples.q 16; Examples.q 16]])
  /\ self_attention_stage Examples.ablation_pre
       Examples.audio_2 Examples.video_3 Examples.mask_1 []
     = Some ((Tensor3 1 1 1 [[[Examples.q 18]]],
              Tensor3 1 1 1 [[[Examples.q 27]]]),
             [(0, true); (1, true); (2, true); (3, true)])
  /\ self_attention_stage Examples.ablation_post
       Examples.audio_2 Examples.video_3 Examples.mask_1 []
     = Some ((Tensor3 1 1 1 [[[Examples.q 32]]],
              Tensor3 1 1 1 [[[Examples.q 48]]]),
             [(0, false); (1, false); (2, false); (3, false)]).
Proof. repeat split; vm_compute; reflexivity. Qed.

(** *** The classification token *)

Section Inversion.

Context `{L : Layers}.

Lemma bind_Some {A B} (c : Fwd A) (k : A -> Fwd B) t y t' :
  (c ≫= k) t = Some (y, t') ->
  exists x t1, c t = Some (x, t1) /\ k x t1 = Some (y, t').
Proof.
  unfold mbind, Fwd_bind. destruct (c t) as [[x t1]|]; [|discriminate].
  intros E. exists x, t1. split; [reflexivity|exact E].
Qed.

Lemma lift_Some {A} (o : option A) t x t' :
  lift o t = Some (x, t') -> o = Some x /\ t' = t.
Proof.
  unfold lift. destruct o; [|discriminate].
  intros E. injection E as <- <-. split; reflexivity.
Qed.

Lemma ret_Some {A} (x y : A) (t t' : list norm_call) :
  (mret x : Fwd A) t = Some (y, t') -> y = x /\ t' = t.
Proof. intros E. injection E as <- <-. split; reflexivity. Qed.

Lemma zip_with_app_replicate {A} (n : nat) (x : list A) (l : list (list A)) :
  zip_with app (replicate n x) l = map (app x) (take n l).
Proof.
  revert l. induction n as [|n IH]; intros [|y l]; simpl; try reflexivity.
  rewrite IH. reflexivity.
Qed.

Lemma prepend_cls_init
    (video_dimension audio_dimension fused_dimension : nat) (config_num : Z)
    (project_type : string) (pre_norm : bool)
    (cls : list scalar) (hw : list (list scalar)) (hb : list scalar)
    (B : nat) (a v f : tensor3 scalar) (m m' : tensor2 scalar) :
  prepend_cls (AblationModel_init video_dimension audio_dimension
                 fused_dimension config_num project_type pre_norm cls hw hb)
              B a v m = Some (f, m') ->
  (dim0 a = B /\ dim0 v = B /\ dim1 v = dim1 a
   /\ dim2 a + dim2 v = fused_dimension * 2 /\ rows2 m = B)
  /\ f = Tensor3 B (1 + dim1 a) (fused_dimension * 2)
           (map (cons cls)
              (take B (zip_with (zip_with app) (data3 a) (data3 v))))
  /\ m' = Tensor2 B (1 + cols2 m) (map (cons one) (take B (data2 m))).
Proof.
  unfold prepend_cls, cat3_dim2, expand3, expand2, cat2_dim1, cat3_dim1.
  simpl.
  repeat (case_decide; simpl in *; try discriminate).
  intros E. injection E as <- <-.
  rewrite !zip_with_app_replicate.
  split; [|split; reflexivity].
  repeat split; lia.
Qed.

Lemma modality_stages_Some (self : AblationModel)
    (a v a1 v1 a2 v2 a3 v3 : tensor3 scalar) (m : tensor2 scalar)
    (t t1 t2 t3 : list norm_call) :
  project self a v t = Some ((a1, v1), t1) ->
  (if decide (enable_self_attention self <> 0%Z)
   then self_attention_stage self a1 v1 m
   else mret (a1, v1)) t1 = Some ((a2, v2), t2) ->
  (if decide (enable_cross_attention self <> 0%Z)
   then cross_attention_stage self a2 v2 m
   else mret (a2, v2)) t2 = Some ((a3, v3), t3) ->
  modality_stages self a v m t = Some ((a3, v3), t3).
Proof.
  intros E1 E2 E3. unfold modality_stages, mbind, Fwd_bind.
  rewrite E1. simpl. rewrite E2. simpl. rewrite E3. reflexivity.
Qed.

End Inversion.

(** C5.  A pass of the ablation model that returns, whatever the
    configuration, has taken the audio and the video sequence that the
    projections and the switched stages gave; has joined them feature-wise,
    put the classification token in front of the joined sequence of every
    sample and the entry one, which is not zero, in front of every mask
    row; has run the fused stage on these; and has handed the first
    position of the outcome to the head, whose output is the result of the
    pass. *)
Theorem AblationModel_classification_token `{L : Layers}
    (video_dimension audio_dimension fused_dimension : nat) (config_num : Z)
    (project_type : string) (pre_norm : bool)
    (cls : list scalar) (hw : list (list scalar)) (hb : list scalar)
    (a v : tensor3 scalar) (m out : tensor2 scalar) (t t' : list norm_call)
    (Hpass : AblationModel_forward
               (AblationModel_init video_dimension audio_dimension
                  fused_dimension config_num project_type pre_norm cls hw hb)
               a v m t = Some (out, t')) :
  let self := AblationModel_init video_dimension audio_dimension
                fused_dimension config_num project_type pre_norm cls hw hb in
  exists (a' v' f1 : tensor3 scalar) (t1 : list norm_call),
    let f0 := Tensor3 (dim0 a) (1 + dim1 a') (fused_dimension * 2)
                (map (cons cls)
                   (take (dim0 a)
                      (zip_with (zip_with app) (data3 a') (data3 v')))) in
    let m' := Tensor2 (dim0 a) (1 + cols2 m)
                (map (cons one) (take (dim0 a) (data2 m))) in
    modality_stages self a v m t = Some ((a', v'), t1)
    /\ (dim0 a' = dim0 a /\ dim0 v' = dim0 a /\ dim1 v' = dim1 a'
        /\ dim2 a' + dim2 v' = fused_dimension * 2 /\ rows2 m = dim0 a)
    /\ prepend_cls self (dim0 a) a' v' m = Some (f0, m')
    /\ is_zero one = false
    /\ fused_stage self f0 m' t1 = Some (f1, t')
    /\ select0 f1 ≫= Linear_forward (head self) = Some out.
Proof.
  intros self. unfold AblationModel_forward in Hpass.
  apply bind_Some in Hpass as ([a1 v1] & t1 & E1 & Hpass).
  apply bind_Some in Hpass as ([a2 v2] & t2 & E2 & Hpass).
  apply bind_Some in Hpass as ([a3 v3] & t3 & E3 & Hpass).
  apply bind_Some in Hpass as ([f0 m'] & t4 & Hcls & Hpass).
  apply lift_Some in Hcls as [Hcls ->].
  apply bind_Some in Hpass as (f1 & t5 & Hfused & Hpass).
  apply bind_Some in Hpass as (o1 & t6 & Hsel & Hpass).
  apply lift_Some in Hsel as [Hsel ->].
  apply bind_Some in Hpass as (o2 & t7 & Hhead & Hpass).
  apply lift_Some in Hhead as [Hhead ->].
  apply ret_Some in Hpass as [-> ->].
  exists a3, v3, f1, t3.
  destruct (prepend_cls_init _ _ _ _ _ _ _ _ _ _ _ _ _ _ _ Hcls)
    as (Hshape & Hf & Hm).
  cbv zeta. rewrite <- Hf, <- Hm.
  split; [exact (modality_stages_Some _ _ _ _ _ _ _ _ _ _ _ _ _ _ E1 E2 E3)|].
  split; [exact Hshape|]. split; [exact Hcls|]. split; [reflexivity|].
  split; [exact Hfused|].
  rewrite Hsel. exact Hhead.
Qed.

Lemma AblationModel_classification_token_witness :
  exists (a' v' f1 : tensor3 scalar) (t1 : list norm_call),
    let f0 := Tensor3 1 (1 + dim1 a') (1 * 2)
                (map (cons [Examples.q 1; Examples.q 1])
                   (take 1 (zip_with (zip_with app) (data3 a') (data3 v')))) in
    let m' := Tensor2 1 (1 + 1) (map (cons one) (take 1 [[Examples.q 1]])) in
    modality_stages Examples.ablation_0
      Examples.audio_2 Examples.video_3 Examples.mask_1 []
    = Some ((a', v'), t1)
    /\ (dim0 a' = 1 /\ dim0 v' = 1 /\ dim1 v' = dim1 a'
        /\ dim2 a' + dim2 v' = 1 * 2 /\ rows2 Examples.mask_1 = 1)
    /\ prepend_cls Examples.ablation_0 1 a' v' Examples.mask_1 = Some (f0, m')
    /\ is_zero one = false
    /\ fused_stage Examples.ablation_0 f0 m' t1
       = Some (f1, [(6, false); (7, false)])
    /\ select0 f1 ≫= Linear_forward (head Examples.ablation_0)
       = Some (Tensor2 1 2 [[Examples.q 4; Examples.q 4]]).
Proof.
  refine (@AblationModel_classification_token Examples.identity_torch
            Examples.plain_layers 1 1 1 0 "linear" false
            [Examples.q 1; Examples.q 1]
            [[Examples.q 1; Examples.q 0]; [Examples.q 0; Examples.q 1]]
            [Examples.q 0; Examples.q 0]
            Examples.audio_2 Examples.video_3 Examples.mask_1
            (Tensor2 1 2 [[Examples.q 4; Examples.q 4]])
            [] [(6, false); (7, false)] _).
  vm_compute. reflexivity.
Defined.

End AblationFacts.

(** ** The encoder-stack model *)

Module DetrFacts.
Import Models.

Lemma entry2_eq0_long (m : tensor2 scalar) (b i : nat) :
  entry2 (eq0_long m) b i
  = (fun x => if is_zero x then 1%Z else 0%Z) <$> entry2 m b i.
Proof.
  unfold entry2, eq0_long, map2. simpl. rewrite list_lookup_fmap.
  destruct (data2 m !! b) as [r|]; simpl; [|reflexivity].
  apply list_lookup_fmap.
Qed.

(** C9.  In a pass of the encoder-stack model that returns, the mask
    handed to each of the three encoder stacks has the shape of the validity
    mask and holds 1 exactly where the validity mask holds zero, 0
    elsewhere; the outputs of the two modality stacks are concatenated
    along the feature dimension and handed to the fused stack; and the
    pooling gets the validity mask itself. *)
Theorem DetrTransformerFusion_forward_masks `{L : Layers}
    (self : DetrTransformerFusion) (a v : tensor3 scalar) (m : tensor2 scalar)
    (out : squeezed)
    (Hpass : DetrTransformerFusion_forward self a v m = Some out) :
  let mask := eq0_long m in
  (rows2 mask = rows2 m /\ cols2 mask = cols2 m /\
   forall b i, entry2 mask b i
               = (fun x => if is_zero x then 1%Z else 0%Z) <$> entry2 m b i)
  /\ exists (a1 v1 a2 v2 f1 f2 : tensor3 scalar) (p y : tensor2 scalar),
       Projection_forward (d_audio_prj self) a = Some a1
       /\ Projection_forward (d_video_prj self) v = Some v1
       /\ TransformerEncoder_forward (audio_enc self) (permute102 a1) mask = Some a2
       /\ TransformerEncoder_forward (video_enc self) (permute102 v1) mask = Some v2
       /\ cat3_dim2 a2 v2 = Some f1
       /\ dim2 f1 = dim2 a2 + dim2 v2
       /\ data3 f1 = zip_with (zip_with app) (data3 a2) (data3 v2)
       /\ TransformerEncoder_forward (fused_enc self) f1 mask = Some f2
       /\ GAP_forward (gap self) (permute102 f2) m = Some p
       /\ ShallowNN_forward (mlp self) p = Some y
       /\ out = squeeze_last y.
Proof.
  intros mask. split.
  - split; [reflexivity|]. split; [reflexivity|]. apply entry2_eq0_long.
  - unfold DetrTransformerFusion_forward in Hpass. fold mask in Hpass.
    destruct (Projection_forward (d_audio_prj self) a) as [a1|] eqn:Ea1;
      simpl in Hpass; [|discriminate].
    destruct (Projection_forward (d_video_prj self) v) as [v1|] eqn:Ev1;
      simpl in Hpass; [|discriminate].
    destruct (TransformerEncoder_forward (audio_enc self) _ mask) as [a2|] eqn:Ea2;
      simpl in Hpass; [|discriminate].
    destruct (TransformerEncoder_forward (video_enc self) _ mask) as [v2|] eqn:Ev2;
      simpl in Hpass; [|discriminate].
    destruct (cat3_dim2 a2 v2) as [f1|] eqn:Ef1; simpl in Hpass; [|discriminate].
    destruct (TransformerEncoder_forward (fused_enc self) f1 mask) as [f2|] eqn:Ef2;
      simpl in Hpass; [|discriminate].
    destruct (GAP_forward (gap self) _ m) as [p|] eqn:Ep;
      simpl in Hpass; [|discriminate].
    destruct (ShallowNN_forward (mlp self) p) as [y|] eqn:Ey;
      simpl in Hpass; [|discriminate].
    injection Hpass as <-.
    exists a1, v1, a2, v2, f1, f2, p, y.
    assert (Hcat : dim2 f1 = dim2 a2 + dim2 v2 /\
                   data3 f1 = zip_with (zip_with app) (data3 a2) (data3 v2)).
    { unfold cat3_dim2 in Ef1. case_decide; [|discriminate].
      injection Ef1 as <-. split; reflexivity. }
    destruct Hcat as [Hd Hz].
    repeat (split; [first [assumption|reflexivity]|]). reflexivity.
Qed.

Lemma DetrTransformerFusion_forward_masks_witness :
  entry2 (eq0_long Examples.mask_10) 0 0 = Some 0%Z /\
  entry2 (eq0_long Examples.mask_10) 0 1 = Some 1%Z.
Proof.
  pose proof (proj1 (DetrTransformerFusion_forward_masks Examples.detr_1
                       Examples.audio_15 Examples.video_20 Examples.mask_10
                       (Squeezed1 [Examples.q 8]) eq_refl)) as (_ & _ & Hm).
  split; [rewrite (Hm 0 0)|rewrite (Hm 0 1)]; reflexivity.
Defined.

End DetrFacts.

(** ** The loop of [main]: what the best model is *)

Module TrainLoopFacts.
Import Train TrainLoop.

Lemma ge_not_nan (x y : scalar) : ge x y = true -> ge x x = true /\ ge y y = true.
Proof.
  destruct x as [a| | |], y as [b| | |]; simpl; try discriminate;
    intros _; split; try reflexivity;
    apply bool_decide_eq_true_2, Qcle_refl.
Qed.

Lemma ge_trans (x y z : scalar) :
  ge x y = true -> ge y z = true -> ge x z = true.
Proof.
  destruct x as [a| | |], y as [b| | |], z as [c| | |]; simpl;
    try discriminate; try reflexivity.
  intros H1 H2. apply bool_decide_eq_true_1 in H1, H2.
  apply bool_decide_eq_true_2. eapply Qcle_trans; eassumption.
Qed.

Lemma ge_total (x y : scalar) :
  ge x x = true -> ge y y = true -> ge x y = false -> ge y x = true.
Proof.
  destruct x as [a| | |], y as [b| | |]; simpl; try discriminate;
    try reflexivity.
  intros _ _ H. apply bool_decide_eq_false_1 in H.
  apply bool_decide_eq_true_2. apply Qclt_le_weak, Qcnot_le_lt, H.
Qed.

Section Loop.

Variable net : Type.
Variable train_epoch : net -> nat -> net.
Variable val : net -> scalar * scalar.
Variable output_dir : string.

#[local] Abbreviation trained := (trained net train_epoch).
#[local] Abbreviation metric := (metric net train_epoch val).
#[local] Abbreviation epochs := (epochs net train_epoch val output_dir).
#[local] Abbreviation decision := (checkpoint_decision net output_dir).
#[local] Abbreviation invariant := (invariant net train_epoch val output_dir).

Lemma trained_S (count : nat) :
  forall epoch n,
    trained (S count) epoch n = train_epoch (trained count epoch n) (epoch + count).
Proof.
  induction count as [|count IH]; intros epoch n.
  - simpl. rewrite Nat.add_0_r. reflexivity.
  - change (trained (S (S count)) epoch n)
      with (trained (S count) (S epoch) (train_epoch n epoch)).
    rewrite IH. simpl. f_equal. lia.
Qed.

Lemma epochs_S (count epoch : nat) (n : net) (st : run net) :
  epochs (S count) epoch n st
  = epochs count (S epoch) (train_epoch n epoch)
      (decision epoch (train_epoch n epoch) (val (train_epoch n epoch)).1
         (val (train_epoch n epoch)).2 st).
Proof. simpl. destruct (val (train_epoch n epoch)); reflexivity. Qed.

(** The loop trains for every epoch it was asked for, whatever the stall
    counter says. *)
Lemma epochs_fst (count : nat) :
  forall epoch n st, (epochs count epoch n st).1 = trained count epoch n.
Proof.
  induction count as [|count IH]; intros epoch n st; [reflexivity|].
  rewrite epochs_S, IH. reflexivity.
Qed.

Lemma decision_cur epoch n vl vm (st : run net) :
  files net (decision epoch n vl vm st) !! cur_path output_dir
  = Some {| ck_epoch := epoch; ck_val_loss := None; ck_val_metrics := None;
            ck_state_dict := n |}.
Proof. unfold checkpoint_decision, cur_path. simpl. apply lookup_insert_eq. Qed.

Lemma epochs_cur (count : nat) :
  forall epoch n st,
    files net (epochs (S count) epoch n st).2 !! cur_path output_dir
    = Some {| ck_epoch := epoch + count; ck_val_loss := None;
              ck_val_metrics := None;
              ck_state_dict := trained (S count) epoch n |}.
Proof.
  induction count as [|count IH]; intros epoch n st.
  - rewrite epochs_S. simpl. rewrite Nat.add_0_r. apply decision_cur.
  - rewrite epochs_S, IH.
    replace (epoch + S count) with (S epoch + count) by lia. reflexivity.
Qed.

Lemma invariant_start (n0 : net) (fs : gmap string (checkpoint net)) :
  invariant n0 0 (start net fs).
Proof.
  split; simpl.
  - reflexivity.
  - intros k Hk. lia.
  - split; [reflexivity|]. split; [reflexivity|]. intros k Hk. lia.
Qed.

Lemma invariant_step (n0 : net) (e0 : nat) (st : run net) :
  invariant n0 e0 st ->
  invariant n0 (S e0)
    (decision e0 (trained (S e0) 0 n0) (val (trained (S e0) 0 n0)).1
       (metric e0 n0) st).
Proof.
  intros [Hfloor Hdom Hbest].
  assert (Hne : cur_path output_dir <> best_path output_dir)
    by apply TrainFacts.best_path_neq_cur.
  unfold checkpoint_decision.
  destruct (ge (metric e0 n0) (best_performance net st)) eqn:Hge.
  - destruct (ge_not_nan _ _ Hge) as [Hm _].
    split; simpl.
    + exact (ge_trans _ _ _ Hge Hfloor).
    + intros k Hk Hk'. destruct (decide (k = e0)) as [->|Hne'].
      * exact Hm.
      * eapply ge_trans; [exact Hge|]. apply Hdom; [lia|exact Hk'].
    + exists e0. split; [lia|].
      split. { rewrite lookup_insert_ne by exact Hne. apply lookup_insert_eq. }
      split; [reflexivity|]. split; [reflexivity|]. split; [lia|].
      intros k Hk. lia.
  - split; simpl.
    + exact Hfloor.
    + intros k Hk Hk'. destruct (decide (k = e0)) as [->|Hne'].
      * apply ge_total;
          [exact Hk'|apply (ge_not_nan _ _ Hfloor)|exact Hge].
      * apply Hdom; [lia|exact Hk'].
    + destruct (best_model net st) as [nb|].
      * destruct Hbest as (e & He & Hfile & Hnb & Hmet & Hstall & Hlater).
        exists e. split; [lia|].
        split. { rewrite lookup_insert_ne by exact Hne. exact Hfile. }
        split; [exact Hnb|]. split; [exact Hmet|]. split; [lia|].
        intros k Hk. destruct (decide (k = e0)) as [->|Hne'];
          [exact Hge|apply Hlater; lia].
      * destruct Hbest as (Hzero & Hstall & Hall).
        split; [exact Hzero|]. split; [lia|].
        intros k Hk. destruct (decide (k = e0)) as [->|Hne'].
        -- rewrite <- Hzero. exact Hge.
        -- apply Hall. lia.
Qed.

Lemma invariant_epochs (n0 : net) (count : nat) :
  forall e0 st,
    invariant n0 e0 st ->
    invariant n0 (e0 + count) (epochs count e0 (trained e0 0 n0) st).2.
Proof.
  induction count as [|count IH]; intros e0 st Hinv.
  - rewrite Nat.add_0_r. exact Hinv.
  - rewrite epochs_S.
    replace (train_epoch (trained e0 0 n0) e0) with (trained (S e0) 0 n0)
      by (rewrite trained_S; reflexivity).
    replace (e0 + S count) with (S e0 + count) by lia.
    apply IH. apply invariant_step, Hinv.
Qed.

Lemma invariant_final (n : net) (count : nat) (fs : gmap string (checkpoint net)) :
  invariant n count (final net train_epoch val output_dir count n fs).
Proof.
  unfold final. apply (invariant_epochs n count 0 (start net fs)).
  apply invariant_start.
Qed.

End Loop.

(** X1.  When the loop of [main] ends with a best model, that model, the
    best value and the best checkpoint on disk all belong to one epoch: the
    model is made of the parameters after that epoch, the best value is
    that epoch's metric, and the checkpoint holds the epoch's number, loss,
    metric and parameters. *)
Theorem best_checkpoint_is_best_model (net : Type)
    (train_epoch : net -> nat -> net) (val : net -> scalar * scalar)
    (output_dir : string) (count : nat) (n : net)
    (fs : gmap string (checkpoint net)) (nb : net)
    (Hbest : best_model net (final net train_epoch val output_dir count n fs)
             = Some nb) :
  let st := final net train_epoch val output_dir count n fs in
  exists e,
    e < count
    /\ nb = trained net train_epoch (S e) 0 n
    /\ metric net train_epoch val e n = best_performance net st
    /\ files net st !! best_path output_dir
       = Some {| ck_epoch := e; ck_val_loss := Some (val nb).1;
                 ck_val_metrics := Some (best_performance net st);
                 ck_state_dict := nb |}.
Proof.
  intros st. subst st.
  destruct (invariant_final net train_epoch val output_dir n count fs)
    as [_ _ Hinv].
  rewrite Hbest in Hinv.
  destruct Hinv as (e & He & Hfile & Hnb & Hmet & _ & _).
  exists e. auto.
Qed.

Lemma best_checkpoint_is_best_model_witness :
  exists e,
    e < 3
    /\ 2 = trained nat LoopExamples.step_net (S e) 0 0
    /\ metric nat LoopExamples.step_net LoopExamples.peak_val e 0
       = best_performance nat
           (final nat LoopExamples.step_net LoopExamples.peak_val "run" 3 0 ∅)
    /\ files nat (final nat LoopExamples.step_net LoopExamples.peak_val "run" 3 0 ∅)
         !! best_path "run"
       = Some {| ck_epoch := e; ck_val_loss := Some (LoopExamples.peak_val 2).1;
                 ck_val_metrics :=
                   Some (best_performance nat
                           (final nat LoopExamples.step_net
                              LoopExamples.peak_val "run" 3 0 ∅));
                 ck_state_dict := 2 |}.
Proof.
  apply (best_checkpoint_is_best_model nat LoopExamples.step_net
           LoopExamples.peak_val "run" 3 0 ∅ 2).
  vm_compute. reflexivity.
Defined.

(** X2.  When the loop ends with a best model, the stall counter is the
    number of epochs run after the epoch of the best checkpoint, and none
    of these later epochs had a metric at least the best value. *)
Theorem stall_counter_since_best (net : Type)
    (train_epoch : net -> nat -> net) (val : net -> scalar * scalar)
    (output_dir : string) (count : nat) (n : net)
    (fs : gmap string (checkpoint net)) (nb : net)
    (Hbest : best_model net (final net train_epoch val output_dir count n fs)
             = Some nb) :
  let st := final net train_epoch val output_dir count n fs in
  exists e,
    ck_epoch net <$> files net st !! best_path output_dir = Some e
    /\ e < count
    /\ epoch_from_last_improvement net st = count - 1 - e
    /\ forall k, e < k < count ->
         ge (metric net train_epoch val k n) (best_performance net st) = false.
Proof.
  intros st. subst st.
  destruct (invariant_final net train_epoch val output_dir n count fs)
    as [_ _ Hinv].
  rewrite Hbest in Hinv.
  destruct Hinv as (e & He & Hfile & _ & _ & Hstall & Hlater).
  exists e. rewrite Hfile. auto.
Qed.

Lemma stall_counter_since_best_witness :
  exists e,
    ck_epoch nat <$>
      files nat (final nat LoopExamples.step_net LoopExamples.peak_val "run" 3 0 ∅)
        !! best_path "run" = Some e
    /\ e < 3
    /\ epoch_from_last_improvement nat
         (final nat LoopExamples.step_net LoopExamples.peak_val "run" 3 0 ∅)
       = 3 - 1 - e
    /\ forall k, e < k < 3 ->
         ge (metric nat LoopExamples.step_net LoopExamples.peak_val k 0)
            (best_performance nat
               (final nat LoopExamples.step_net LoopExamples.peak_val "run" 3 0 ∅))
         = false.
Proof.
  apply (stall_counter_since_best nat LoopExamples.step_net
           LoopExamples.peak_val "run" 3 0 ∅ 2).
  vm_compute. reflexivity.
Defined.

(** X3.  The loop of [main] ends with no best model, so that the final test
    of line 222 raises, exactly when no epoch had a metric at least 0.0:
    when every metric was negative or NaN, or no epoch was run. *)
Theorem no_best_model_iff (net : Type)
    (train_epoch : net -> nat -> net) (val : net -> scalar * scalar)
    (output_dir : string) (count : nat) (n : net)
    (fs : gmap string (checkpoint net)) :
  main_best_model net train_epoch val output_dir count n fs = None
  <-> forall k, k < count -> ge (metric net train_epoch val k n) zero = false.
Proof.
  pose proof (invariant_final net train_epoch val output_dir n count fs)
    as [Hfloor _ Hinv].
  unfold main_best_model. fold (final net train_epoch val output_dir count n fs).
  destruct (best_model net (final net train_epoch val output_dir count n fs))
    as [nb|].
  - destruct Hinv as (e & He & _ & _ & Hmet & _ & _).
    split; [discriminate|]. intros Hall. specialize (Hall e He).
    rewrite Hmet, Hfloor in Hall. discriminate Hall.
  - destruct Hinv as (_ & _ & Hall). split; [intros _; exact Hall|reflexivity].
Qed.

Lemma no_best_model_iff_witness :
  main_best_model nat LoopExamples.step_net LoopExamples.nan_val "run" 3 0 ∅
  = None.
Proof.
  apply (proj2 (no_best_model_iff nat LoopExamples.step_net
                  LoopExamples.nan_val "run" 3 0 ∅)).
  intros k Hk. reflexivity.
Defined.

(** X4.  Whatever the number of epochs and the metrics, the best value at
    the end of the loop is at least 0.0 and is not NaN; and it is at least
    the metric of every epoch whose metric is not NaN. *)
Theorem best_performance_dominates (net : Type)
    (train_epoch : net -> nat -> net) (val : net -> scalar * scalar)
    (output_dir : string) (count : nat) (n : net)
    (fs : gmap string (checkpoint net)) :
  let st := final net train_epoch val output_dir count n fs in
  ge (best_performance net st) zero = true
  /\ best_performance net st <> NaN
  /\ forall k, k < count ->
       ge (metric net train_epoch val k n)
          (metric net train_epoch val k n) = true ->
       ge (best_performance net st) (metric net train_epoch val k n) = true.
Proof.
  intros st. subst st.
  destruct (invariant_final net train_epoch val output_dir n count fs)
    as [Hfloor Hdom _].
  split; [exact Hfloor|]. split; [|exact Hdom].
  intros E. rewrite E in Hfloor. discriminate Hfloor.
Qed.

Lemma best_performance_dominates_witness :
  ge (best_performance nat
        (final nat LoopExamples.step_net LoopExamples.peak_val "run" 3 0 ∅))
     (metric nat LoopExamples.step_net LoopExamples.peak_val 2 0) = true
  /\ best_performance nat
       (final nat LoopExamples.step_net LoopExamples.nan_val "run" 3 0 ∅)
     <> NaN.
Proof.
  split.
  - refine (proj2 (proj2 (best_performance_dominates nat LoopExamples.step_net
                            LoopExamples.peak_val "run" 3 0 ∅)) 2 _ _).
    + lia.
    + vm_compute. reflexivity.
  - exact (proj1 (proj2 (best_performance_dominates nat LoopExamples.step_net
                           LoopExamples.nan_val "run" 3 0 ∅))).
Defined.

(** X6.  After a loop of at least one epoch the current checkpoint holds
    the number of the last epoch and the parameters after all the epochs:
    the loop trains for every epoch it was asked for, whatever the stall
    counter says. *)
Theorem cur_checkpoint_last_epoch (net : Type)
    (train_epoch : net -> nat -> net) (val : net -> scalar * scalar)
    (output_dir : string) (count : nat) (n : net)
    (fs : gmap string (checkpoint net)) :
  files net (final net train_epoch val output_dir (S count) n fs)
    !! cur_path output_dir
  = Some {| ck_epoch := count; ck_val_loss := None; ck_val_metrics := None;
            ck_state_dict := trained net train_epoch (S count) 0 n |}
  /\ (epochs net train_epoch val output_dir (S count) 0 n (start net fs)).1
     = trained net train_epoch (S count) 0 n.
Proof.
  split.
  - unfold final. rewrite epochs_cur. reflexivity.
  - apply epochs_fst.
Qed.

End TrainLoopFacts.

(** ** Validation *)

Module ValidationFacts.
Import Validation.

Section WithNet.

Variable net : Type.
Variable batch : Type.
Variable forward : net -> batch -> option (list scalar).
Variable labels_of : batch -> list scalar.
Variable size0 : batch -> nat.
Variable criteria : list scalar -> list scalar -> option scalar.
Variable AverageMeter : Type.
Variable AverageMeter_init : AverageMeter.
Variable AverageMeter_update :
  AverageMeter -> scalar -> nat -> option AverageMeter.

#[local] Abbreviation val_loop :=
  (val_loop net batch forward labels_of size0 criteria AverageMeter
     AverageMeter_update).
#[local] Abbreviation val_collect :=
  (val_collect net batch forward labels_of size0 criteria AverageMeter
     AverageMeter_init AverageMeter_update).
#[local] Abbreviation metered :=
  (metered batch labels_of size0 criteria AverageMeter AverageMeter_update).

Lemma val_loop_collected (n : net) (validldr : list batch) :
  forall (st : collected AverageMeter) (y0 l0 : list scalar),
    all_y AverageMeter st = Some y0 ->
    all_labels AverageMeter st = Some l0 ->
    val_loop n st validldr
    = (ys ← mapM (forward n) validldr;
       total ← metered (total_losses AverageMeter st) validldr ys;
       Some {| total_losses := total;
               all_y := Some (y0 ++ concat ys);
               all_labels := Some (l0 ++ concat (map labels_of validldr)) |}).
Proof.
  induction validldr as [|data validldr IH]; intros st y0 l0 Hy Hl.
  - simpl. rewrite !app_nil_r. destruct st; simpl in *. subst. reflexivity.
  - simpl. unfold val_batch. destruct (forward n data) as [y|]; [|reflexivity].
    simpl.
    destruct (criteria y (labels_of data)) as [loss|] eqn:Hloss; simpl;
      [|destruct (mapM (forward n) validldr); simpl; rewrite ?Hloss;
        reflexivity].
    destruct (AverageMeter_update (total_losses AverageMeter st) loss
                (size0 data)) as [total|] eqn:Htotal; simpl;
      [|destruct (mapM (forward n) validldr); simpl;
        rewrite ?Hloss; simpl; rewrite ?Htotal; reflexivity].
    rewrite Hy, Hl. simpl.
    erewrite IH by reflexivity. simpl.
    destruct (mapM (forward n) validldr) as [ys|]; [|reflexivity].
    simpl. rewrite Hloss. simpl. rewrite Htotal. simpl.
    destruct (metered total validldr ys); [|reflexivity].
    simpl. rewrite <- !app_assoc. reflexivity.
Qed.

Lemma val_collect_unfold (n : net) (validldr : list batch) :
  val_collect n validldr
  = match validldr with
    | [] => None
    | _ :: _ =>
        ys ← mapM (forward n) validldr;
        total ← metered AverageMeter_init validldr ys;
        Some (total, map threshold (concat ys),
              concat (map labels_of validldr))
    end.
Proof.
  unfold Validation.val_collect. destruct validldr as [|data validldr].
  - reflexivity.
  - simpl. unfold val_batch. destruct (forward n data) as [y|]; [|reflexivity].
    simpl.
    destruct (criteria y (labels_of data)) as [loss|] eqn:Hloss; simpl;
      [|destruct (mapM (forward n) validldr); simpl; rewrite ?Hloss;
        reflexivity].
    destruct (AverageMeter_update AverageMeter_init loss (size0 data))
      as [total|] eqn:Htotal; simpl;
      [|destruct (mapM (forward n) validldr); simpl;
        rewrite ?Hloss; simpl; rewrite ?Htotal; reflexivity].
    erewrite val_loop_collected by reflexivity. simpl.
    destruct (mapM (forward n) validldr) as [ys|]; [|reflexivity].
    simpl. rewrite Hloss. simpl. rewrite Htotal. simpl.
    destruct (metered total validldr ys); reflexivity.
Qed.

Lemma concat_lengths (validldr : list batch) (ys : list (list scalar)) :
  Forall2 (fun data y => length y = length (labels_of data)) validldr ys ->
  length (concat ys) = length (concat (map labels_of validldr)).
Proof.
  induction 1 as [|data y validldr ys Hy Hys IH]; simpl; [reflexivity|].
  rewrite !length_app. congruence.
Qed.

Lemma threshold_binary (y : scalar) : threshold y = 0%Z \/ threshold y = 1%Z.
Proof. unfold threshold. destruct (ge y _); auto. Qed.

End WithNet.


(** On two batches of which the second has an output that is NaN, the
    validation returns under a loss that accepts every output, and raises
    under one that does not accept NaN. *)
Lemma val_collect_loss_raises :
  ValExamples.echo_collect ValExamples.two_batches
  = Some (tt, [1%Z; 0%Z; 0%Z], [Examples.q 1; Examples.q 0; NaN])
  /\ ValExamples.strict_collect ValExamples.two_batches = None.
Proof. split; vm_compute; reflexivity. Qed.

(** X8.  When the network answers every batch with as many entries as the
    batch has labels, a validation that returns hands the metrics as many
    predictions as labels, and every prediction is 0 or 1: an output that
    is NaN is a prediction of 0. *)
Theorem val_predictions_aligned (net batch : Type)
    (forward : net -> batch -> option (list scalar))
    (labels_of : batch -> list scalar) (size0 : batch -> nat)
    (criteria : list scalar -> list scalar -> option scalar)
    (AverageMeter : Type) (AverageMeter_init : AverageMeter)
    (AverageMeter_update : AverageMeter -> scalar -> nat -> option AverageMeter)
    (n : net) (validldr : list batch)
    (total : AverageMeter) (preds : list Z) (ls : list scalar)
    (Hsize : forall data y, forward n data = Some y ->
                            length y = length (labels_of data))
    (Hval : val_collect net batch forward labels_of size0 criteria AverageMeter
              AverageMeter_init AverageMeter_update n validldr
            = Some (total, preds, ls)) :
  length preds = length ls
  /\ Forall (fun p => p = 0%Z \/ p = 1%Z) preds
  /\ threshold NaN = 0%Z.
Proof.
  rewrite val_collect_unfold in Hval.
  destruct validldr as [|data validldr]; [discriminate|].
  cbv iota in Hval.
  apply bind_Some in Hval as (ys & Hys & Hval).
  apply bind_Some in Hval as (total' & _ & Hval).
  injection Hval as _ <- <-.
  apply mapM_Some_1 in Hys.
  split; [|split; [|reflexivity]].
  - rewrite length_map.
    apply (concat_lengths batch labels_of (data :: validldr) ys).
    eapply Forall2_impl; [exact Hys|]. intros d y. apply Hsize.
  - apply Forall_map, Forall_forall. intros y _. apply threshold_binary.
Qed.

Lemma val_predictions_aligned_witness :
  length [1%Z; 0%Z; 0%Z] = length [Examples.q 1; Examples.q 0; NaN].
Proof.
  refine (proj1 (val_predictions_aligned unit (list scalar)
                   ValExamples.echo_forward (fun data => data)
                   (fun data => length data) (fun _ _ => Some zero) unit tt
                   (fun _ _ _ => Some tt) tt ValExamples.two_batches
                   tt [1%Z; 0%Z; 0%Z] [Examples.q 1; Examples.q 0; NaN] _ _)).
  - intros data y E. injection E as <-. reflexivity.
  - vm_compute. reflexivity.
Defined.

End ValidationFacts.

(** ** Transposition *)

Module TransposeFacts.
Import TensorShape.

Lemma omap_fmap_compose {A B C} (f : B -> option C) (g : A -> B) (l : list A) :
  omap f (map g l) = omap (fun x => f (g x)) l.
Proof.
  induction l as [|x l IH]; simpl; [reflexivity|].
  destruct (f (g x)); [f_equal|]; exact IH.
Qed.

Lemma omap_ext_Forall {A B} (f g : A -> option B) (l : list A) :
  Forall (fun x => f x = g x) l -> omap f l = omap g l.
Proof.
  induction 1 as [|x l Hx Hl IH]; simpl; [reflexivity|].
  rewrite Hx. destruct (g x); [f_equal|]; exact IH.
Qed.

(** The column [j] of a nested list all of whose rows reach [j]. *)
Lemma omap_lookup_column {A} (j : nat) (l : list (list A)) :
  Forall (fun r => j < length r) l ->
  forall i, omap (fun r => r !! j) l !! i = (l !! i) ≫= (fun r => r !! j).
Proof.
  induction 1 as [|r l Hr Hl IH]; intros i; [reflexivity|].
  destruct (lookup_lt_is_Some_2 r j Hr) as [x Hx].
  simpl. rewrite Hx. destruct i as [|i]; simpl; [symmetry; exact Hx|apply IH].
Qed.

Lemma omap_lookup_seq_app {A} (row : list A) :
  forall pre : list A,
    omap (fun j => (pre ++ row) !! j) (seq (length pre) (length row)) = row.
Proof.
  induction row as [|x row IH]; intros pre; [reflexivity|].
  simpl. rewrite list_lookup_middle by reflexivity. f_equal.
  specialize (IH (pre ++ [x])).
  rewrite length_app in IH. simpl in IH.
  rewrite Nat.add_1_r, <- app_assoc in IH. exact IH.
Qed.

Lemma omap_lookup_seq {A} (row : list A) :
  omap (fun j => row !! j) (seq 0 (length row)) = row.
Proof. apply (omap_lookup_seq_app row []). Qed.

(** Transposing twice gives back a nested list of [m] rows of length [n]. *)
Lemma transpose_ll_involutive {A} (n m : nat) (l : list (list A)) :
  length l = m -> Forall (fun r => length r = n) l ->
  transpose_ll m (transpose_ll n l) = l.
Proof.
  intros Hm Hn. apply list_eq. intros i.
  unfold transpose_ll at 1. rewrite list_lookup_fmap.
  destruct (decide (i < m)) as [Hi|Hi].
  - rewrite lookup_seq_lt by exact Hi. simpl.
    destruct (lookup_lt_is_Some_2 l i ltac:(lia)) as [row Hrow].
    rewrite Hrow. f_equal.
    unfold transpose_ll. rewrite omap_fmap_compose.
    assert (Hlen : length row = n).
    { eapply (proj1 (Forall_forall _ _) Hn), list_elem_of_lookup_2, Hrow. }
    transitivity (omap (fun j => row !! j) (seq 0 n));
      [|rewrite <- Hlen; apply omap_lookup_seq].
    apply omap_ext_Forall, Forall_forall. intros j Hj.
    apply elem_of_seq in Hj.
    rewrite omap_lookup_column.
    + rewrite Hrow. reflexivity.
    + eapply Forall_impl; [exact Hn|]. intros r Hr. simpl in Hr. lia.
  - rewrite lookup_seq_ge by lia. simpl. symmetry.
    apply lookup_ge_None_2. lia.
Qed.

(** X9.  On a well-formed (B, T, D) tensor the transposition of the last
    two dimensions, applied twice as [AblationModel.forward] does around a
    convolutional projection, gives the tensor back, whatever the sizes,
    zero included. *)
Theorem transpose12_involutive {A} (x : tensor3 A) (Hwf : wf3 x) :
  transpose12 (transpose12 x) = x.
Proof.
  destruct x as [B T D data]. destruct Hwf as [HB Hdata]. simpl in *.
  unfold transpose12. simpl. f_equal.
  rewrite <- list_fmap_compose.
  rewrite <- (list_fmap_id data) at 2.
  apply Forall_fmap_ext_1. eapply Forall_impl; [exact Hdata|].
  intros s [HT HD]. simpl. apply transpose_ll_involutive; assumption.
Qed.

Lemma transpose12_involutive_witness :
  transpose12 (transpose12 Examples.audio_15) = Examples.audio_15.
Proof.
  apply (transpose12_involutive Examples.audio_15).
  split; [reflexivity|]. repeat constructor.
Defined.

(** X10.  On a well-formed (B, T, D) tensor the exchange of the batch and
    time dimensions, applied twice as [DetrTransformerFusion.forward] does
    around its encoder stacks, gives the tensor back, whatever the sizes,
    zero included. *)
Theorem permute102_involutive {A} (x : tensor3 A) (Hwf : wf3 x) :
  permute102 (permute102 x) = x.
Proof.
  destruct x as [B T D data]. destruct Hwf as [HB Hdata]. simpl in *.
  unfold permute102. simpl. f_equal.
  apply transpose_ll_involutive; [exact HB|].
  eapply Forall_impl; [exact Hdata|]. intros s [HT _]. exact HT.
Qed.

Lemma permute102_involutive_witness :
  permute102 (permute102 Examples.audio_15) = Examples.audio_15.
Proof.
  apply (permute102_involutive Examples.audio_15).
  split; [reflexivity|]. repeat constructor.
Defined.

End TransposeFacts.

(** ** Shapes through the models *)

Module ShapeFacts.
Import Models TensorShape.

Lemma expand_to_replicate {A} (n : nat) (x : A) :
  expand_to n (replicate n x) = replicate n x.
Proof. destruct n as [|[|n]]; reflexivity. Qed.

Lemma length_expand_to {A} (n : nat) (l : list A) :
  length l = n -> length (expand_to n l) = n.
Proof.
  intros H. destruct l as [|x [|y l]]; simpl in *; try exact H.
  apply length_replicate.
Qed.

Lemma length_broadcast2 {A} (r c : nat) (t : tensor2 A) :
  length (data2 t) = r -> length (broadcast2 r c t) = r.
Proof.
  intros H. unfold broadcast2. apply length_expand_to.
  rewrite length_map. exact H.
Qed.

(** Division of a (B, D) tensor by a 1-D tensor of length B, as column. *)
Lemma div_unsqueeze1_returns (x : tensor2 scalar) (c : list scalar) :
  rows2 x = length c -> length (data2 x) = length c ->
  exists y, Tensor.div x (unsqueeze1 c) = Some y
            /\ rows2 y = length c /\ cols2 y = cols2 x
            /\ length (data2 y) = length c.
Proof.
  intros Hr Hd. unfold Tensor.div. simpl.
  rewrite Hr, PoolingFacts.broadcast_dim_refl, PoolingFacts.broadcast_dim_1_r.
  simpl. eexists. split; [reflexivity|]. simpl.
  split; [reflexivity|]. split; [reflexivity|].
  rewrite length_zip_with, !length_broadcast2; simpl;
    rewrite ?length_map; lia.
Qed.

(** The pooling returns on well-formed inputs of one batch size. *)
Lemma mean_pool_returns (a v : tensor3 scalar) (m : tensor2 scalar) :
  wf3 a -> wf3 v -> wf2 m -> dim0 a = rows2 m -> dim0 v = rows2 m ->
  exists x, mean_pool a v m = Some x
            /\ rows2 x = rows2 m /\ cols2 x = dim2 a + dim2 v
            /\ length (data2 x) = rows2 m.
Proof.
  intros [Ha _] [Hv _] [Hm _] Hab Hvb. unfold mean_pool.
  assert (Hc : length (sum_rows m) = rows2 m)
    by (unfold sum_rows; rewrite length_map; exact Hm).
  destruct (div_unsqueeze1_returns (sum_dim1 a) (sum_rows m))
    as (fa & Efa & Hfa1 & Hfa2 & Hfa3);
    [simpl; lia|simpl; rewrite length_map; lia|].
  destruct (div_unsqueeze1_returns (sum_dim1 v) (sum_rows m))
    as (fv & Efv & Hfv1 & Hfv2 & Hfv3);
    [simpl; lia|simpl; rewrite length_map; lia|].
  rewrite Efa, Efv. simpl. unfold cat2_dim1.
  rewrite decide_True by congruence.
  eexists. split; [reflexivity|]. simpl.
  split; [lia|]. split; [simpl in *; lia|].
  rewrite length_zip_with. lia.
Qed.

Lemma length_concat_singletons {A} (l : list (list A)) :
  Forall (fun r => length r = 1) l -> length (concat l) = length l.
Proof.
  induction 1 as [|r l Hr Hl IH]; simpl; [reflexivity|].
  rewrite length_app. lia.
Qed.

(** X11.  A [ShallowNN] built by its constructor accepts exactly the inputs
    whose width is [in_features]: its two layers always fit one another,
    and the output has the rows of the input and [out_features] columns,
    where an [out_features] of [None] or 0 stands for [in_features].
    Dropout is taken to keep the shape of its input. *)
Theorem ShallowNN_forward_returns `{T : TorchNN}
    (Hdrop : forall tag p x, rows2 (Dropout tag p x) = rows2 x
                             /\ cols2 (Dropout tag p x) = cols2 x)
    (in_feat : nat) (hidden_features out_feat : option nat)
    (act_layer : scalar -> scalar) (p : Qc)
    (w1 : list (list scalar)) (b1 : list scalar)
    (w2 : list (list scalar)) (b2 : list scalar) (x : tensor2 scalar) :
  let net := ShallowNN_init in_feat hidden_features out_feat act_layer p
               w1 b1 w2 b2 in
  if decide (cols2 x = in_feat)
  then exists y, ShallowNN_forward net x = Some y
                 /\ rows2 y = rows2 x /\ cols2 y = py_or out_feat in_feat
  else ShallowNN_forward net x = None.
Proof.
  intros net. subst net. unfold ShallowNN_forward, Linear_forward. simpl.
  case_decide as Hc; simpl; [|reflexivity].
  destruct (Hdrop "drop" p
              (map2 GELU
                 {| rows2 := rows2 x;
                    cols2 := py_or hidden_features in_feat;
                    data2 := map (Linear_row
                                    {| in_features := in_feat;
                                       out_features := py_or hidden_features in_feat;
                                       weight := w1; bias := b1 |}) (data2 x) |}))
    as [Hr Hk].
  simpl in Hr, Hk. rewrite decide_True by exact Hk. simpl.
  eexists. split; [reflexivity|]. simpl. split; [exact Hr|reflexivity].
Qed.

Lemma ShallowNN_forward_returns_witness :
  exists y,
    ShallowNN_forward
      (@ShallowNN_init Examples.identity_torch 2 None (Some 0) (fun x => x) 0%Qc
         [[Examples.q 1; Examples.q 0]; [Examples.q 0; Examples.q 1]]
         [Examples.q 0; Examples.q 0]
         [[Examples.q 1; Examples.q 0]; [Examples.q 0; Examples.q 1]]
         [Examples.q 0; Examples.q 0])
      (Tensor2 1 2 [[Examples.q 6; Examples.q 2]]) = Some y
    /\ rows2 y = 1 /\ cols2 y = 2.
Proof.
  apply (@ShallowNN_forward_returns Examples.identity_torch
           (fun _ _ _ => conj eq_refl eq_refl) 2 None (Some 0) (fun x => x) 0%Qc
           [[Examples.q 1; Examples.q 0]; [Examples.q 0; Examples.q 1]]
           [Examples.q 0; Examples.q 0]
           [[Examples.q 1; Examples.q 0]; [Examples.q 0; Examples.q 1]]
           [Examples.q 0; Examples.q 0]
           (Tensor2 1 2 [[Examples.q 6; Examples.q 2]])).
Defined.

(** X12.  A pass of the mean-pool fusion model that returns had audio and
    video widths that add up to [input_dimension].  Its result is a 1-D
    tensor exactly when the head has one output; a head built with
    [out_features = 0] has [input_dimension] outputs, and with more than
    one output [squeeze(-1)] leaves the result 2-D. *)
Theorem FeatureFusion_forward_shape `{T : TorchNN}
    (input_dimension hidden_features out_feat : nat)
    (w1 : list (list scalar)) (b1 : list scalar)
    (w2 : list (list scalar)) (b2 : list scalar)
    (a v : tensor3 scalar) (m : tensor2 scalar) (r : squeezed)
    (Hpass : FeatureFusion_forward
               (FeatureFusion_init input_dimension hidden_features out_feat
                  w1 b1 w2 b2) a v m = Some r) :
  dim2 a + dim2 v = input_dimension
  /\ match r with
     | Squeezed1 _ => py_or (Some out_feat) input_dimension = 1
     | Squeezed2 t => cols2 t = py_or (Some out_feat) input_dimension
                      /\ cols2 t <> 1
     end.
Proof.
  unfold FeatureFusion_forward in Hpass.
  destruct (mean_pool a v m) as [x|] eqn:Ex; simpl in Hpass; [|discriminate].
  destruct (ShallowNN_forward _ x) as [y|] eqn:Ey; simpl in Hpass; [|discriminate].
  injection Hpass as <-.
  pose proof (PoolingFacts.mean_pool_cols _ _ _ _ Ex) as Hx.
  pose proof (PoolingFacts.ShallowNN_forward_cols _ _ _ Ey) as Hin.
  simpl in Hin. split; [lia|].
  assert (Hy : cols2 y = py_or (Some out_feat) input_dimension).
  { unfold ShallowNN_forward in Ey.
    destruct (Linear_forward _ x) as [x1|]; simpl in Ey; [|discriminate].
    unfold Linear_forward in Ey. case_decide; [|discriminate].
    injection Ey as <-. reflexivity. }
  unfold squeeze_last. case_decide; [congruence|]. split; [exact Hy|assumption].
Qed.

Lemma FeatureFusion_forward_shape_witness :
  dim2 Examples.audio_10 + dim2 Examples.video_20 = 2
  /\ py_or (Some 1) 2 = 1.
Proof.
  apply (@FeatureFusion_forward_shape Examples.identity_torch 2 2 1
           [[Examples.q 1; Examples.q 0]; [Examples.q 0; Examples.q 1]]
           [Examples.q 0; Examples.q 0] [[Examples.q 1; Examples.q 1]]
           [Examples.q 0] Examples.audio_10 Examples.video_20 Examples.mask_10
           (Squeezed1 [Examples.q 3])).
  vm_compute. reflexivity.
Defined.

(** X13.  On well-formed audio, video and mask of one batch size whose
    widths add up to [input_dimension], the mean-pool fusion model with one
    output returns, and its result is a 1-D tensor with one entry per
    sample.  The second layer is taken to have the one weight row and the
    one bias of [nn.Linear(hidden, 1)], and dropout to keep the shape. *)
Theorem FeatureFusion_forward_one_per_sample `{T : TorchNN}
    (Hdrop : forall tag p x,
        rows2 (Dropout tag p x) = rows2 x
        /\ cols2 (Dropout tag p x) = cols2 x
        /\ length (data2 (Dropout tag p x)) = length (data2 x))
    (input_dimension hidden_features : nat)
    (w1 : list (list scalar)) (b1 : list scalar)
    (w2 : list (list scalar)) (b2 : list scalar)
    (a v : tensor3 scalar) (m : tensor2 scalar)
    (Hw2 : length w2 = 1) (Hb2 : length b2 = 1)
    (Ha : wf3 a) (Hv : wf3 v) (Hm : wf2 m)
    (Hab : dim0 a = rows2 m) (Hvb : dim0 v = rows2 m)
    (Hwidth : dim2 a + dim2 v = input_dimension) :
  exists l,
    FeatureFusion_forward
      (FeatureFusion_init input_dimension hidden_features 1 w1 b1 w2 b2) a v m
    = Some (Squeezed1 l)
    /\ length l = rows2 m.
Proof.
  destruct (mean_pool_returns a v m Ha Hv Hm Hab Hvb)
    as (x & Ex & Hx1 & Hx2 & Hx3).
  unfold FeatureFusion_forward. rewrite Ex. simpl.
  unfold ShallowNN_forward, Linear_forward. simpl.
  rewrite decide_True by lia. simpl.
  match goal with |- context [Dropout "drop" 0%Qc ?t] =>
    destruct (Hdrop "drop" 0%Qc t) as (Hr & Hk & Hl); set (d := Dropout "drop" 0%Qc t) in *
  end.
  simpl in Hr, Hk, Hl. rewrite decide_True by exact Hk. simpl.
  unfold squeeze_last. simpl.
  eexists. split; [reflexivity|].
  rewrite length_concat_singletons.
  - rewrite !length_map, Hl, !length_map. exact Hx3.
  - apply Forall_map, Forall_map, Forall_forall. intros row _. simpl.
    rewrite length_map. unfold Linear_row. simpl.
    rewrite length_zip_with. lia.
Qed.

Lemma FeatureFusion_forward_one_per_sample_witness :
  exists l,
    FeatureFusion_forward Examples.fusion_2
      Examples.audio_15 Examples.video_20 Examples.mask_10
    = Some (Squeezed1 l)
    /\ length l = 1.
Proof.
  apply (@FeatureFusion_forward_one_per_sample Examples.identity_torch
           (fun _ _ _ => conj eq_refl (conj eq_refl eq_refl)) 2 2
           [[Examples.q 1; Examples.q 0]; [Examples.q 0; Examples.q 1]]
           [Examples.q 0; Examples.q 0] [[Examples.q 1; Examples.q 1]]
           [Examples.q 0] Examples.audio_15 Examples.video_20 Examples.mask_10).
  - reflexivity.
  - reflexivity.
  - split; [reflexivity|]. repeat constructor.
  - split; [reflexivity|]. repeat constructor.
  - split; [reflexivity|]. repeat constructor.
  - reflexivity.
  - reflexivity.
  - reflexivity.
Defined.

(** X14.  On a batch of sequences of no timestep the pooling divides zero
    by zero: it returns, and every pooled feature of every sample is NaN. *)
Theorem mean_pool_empty_time (B Da Dv : nat) :
  mean_pool (empty_time3 B Da) (empty_time3 B Dv) (empty_time2 B)
  = Some (Tensor2 B (Da + Dv) (replicate B (replicate (Da + Dv) NaN))).
Proof.
  assert (Hsum : forall D, sum_dim1 (empty_time3 B D)
                           = Tensor2 B D (replicate B (replicate D zero))).
  { intros D. unfold sum_dim1, empty_time3. simpl.
    f_equal.
    exact (fmap_replicate (fun s => foldr vadd (replicate D zero) s) B []). }
  assert (Hrows : sum_rows (empty_time2 B) = replicate B zero).
  { unfold sum_rows, empty_time2. simpl.
    exact (fmap_replicate (foldr add zero) B []). }
  assert (Hdiv : forall D,
             Tensor.div (Tensor2 B D (replicate B (replicate D zero)))
               (unsqueeze1 (replicate B zero))
             = Some (Tensor2 B D (replicate B (replicate D NaN)))).
  { intros D. unfold Tensor.div, unsqueeze1. simpl.
    rewrite length_replicate, PoolingFacts.broadcast_dim_refl,
      PoolingFacts.broadcast_dim_1_r. simpl.
    unfold broadcast2. simpl.
    rewrite !fmap_replicate. simpl.
    rewrite !expand_to_replicate, !zip_with_replicate. reflexivity. }
  unfold mean_pool. rewrite !Hsum, Hrows, !Hdiv. simpl.
  unfold cat2_dim1. simpl. rewrite decide_True by reflexivity.
  rewrite zip_with_replicate, replicate_add. reflexivity.
Qed.

End ShapeFacts.

(** ** The ablation model, the encoder-stack model and the encoder-decoder
    model: what a pass needs and gives *)

Module ModelFacts.
Import Models Stanford.

(** X15.  The three switches of the ablation model are the three low bits
    of [config_num], for every integer, negative ones included: each is 0
    or 1, and together they make up [config_num] modulo 8. *)
Theorem AblationModel_config_bits `{L : Layers}
    (video_dimension audio_dimension fused_dimension : nat) (config_num : Z)
    (project_type : string) (pre_norm : bool)
    (cls : list scalar) (hw : list (list scalar)) (hb : list scalar) :
  let self := AblationModel_init video_dimension audio_dimension
                fused_dimension config_num project_type pre_norm cls hw hb in
  (enable_self_attention self = 0 \/ enable_self_attention self = 1)%Z
  /\ (enable_cross_attention self = 0 \/ enable_cross_attention self = 1)%Z
  /\ (enable_fused_attention self = 0 \/ enable_fused_attention self = 1)%Z
  /\ (enable_self_attention self + 2 * enable_cross_attention self
      + 4 * enable_fused_attention self = config_num `mod` 8)%Z.
Proof.
  intros self. subst self. simpl.
  Z.to_euclidean_division_equations. lia.
Qed.

(** X16.  A pass of the ablation model that returns gives two logits per
    row, and had a mask with as many rows as the audio input has samples:
    the batch size that the classification token and its mask entry are
    expanded to is read off the audio input before the projection. *)
Theorem AblationModel_forward_shape `{L : Layers}
    (video_dimension audio_dimension fused_dimension : nat) (config_num : Z)
    (project_type : string) (pre_norm : bool)
    (cls : list scalar) (hw : list (list scalar)) (hb : list scalar)
    (a v : tensor3 scalar) (m out : tensor2 scalar)
    (Hpass : AblationModel_logits
               (AblationModel_init video_dimension audio_dimension
                  fused_dimension config_num project_type pre_norm cls hw hb)
               a v m = Some out) :
  cols2 out = 2 /\ rows2 m = dim0 a.
Proof.
  unfold AblationModel_logits in Hpass.
  destruct (AblationModel_forward _ a v m []) as [[out' t']|] eqn:E;
    [|discriminate].
  simpl in Hpass. injection Hpass as ->.
  unfold AblationModel_forward in E.
  apply AblationFacts.bind_Some in E as ([a1 v1] & t1 & _ & E).
  apply AblationFacts.bind_Some in E as ([a2 v2] & t2 & _ & E).
  apply AblationFacts.bind_Some in E as ([a3 v3] & t3 & _ & E).
  apply AblationFacts.bind_Some in E as ([f0 m'] & t4 & Hcls & E).
  apply AblationFacts.lift_Some in Hcls as [Hcls ->].
  apply AblationFacts.bind_Some in E as (f1 & t5 & _ & E).
  apply AblationFacts.bind_Some in E as (o1 & t6 & _ & E).
  apply AblationFacts.bind_Some in E as (o2 & t7 & Hhead & E).
  apply AblationFacts.lift_Some in Hhead as [Hhead ->].
  apply AblationFacts.ret_Some in E as [-> ->].
  split.
  - unfold Linear_forward in Hhead. case_decide; [|discriminate].
    injection Hhead as <-. reflexivity.
  - unfold prepend_cls in Hcls.
    destruct (cat3_dim2 a3 v3) as [f|]; simpl in Hcls; [|discriminate].
    unfold cat2_dim1 in Hcls at 1. simpl in Hcls.
    destruct (decide (dim0 a = rows2 m)) as [Hrows|]; [|discriminate].
    symmetry. exact Hrows.
Qed.

Lemma AblationModel_forward_shape_witness :
  cols2 (Tensor2 1 2 [[Examples.q 4; Examples.q 4]]) = 2
  /\ rows2 Examples.mask_1 = dim0 Examples.audio_2.
Proof.
  apply (@AblationModel_forward_shape Examples.identity_torch
           Examples.plain_layers 1 1 1 0 "linear" false
           [Examples.q 1; Examples.q 1]
           [[Examples.q 1; Examples.q 0]; [Examples.q 0; Examples.q 1]]
           [Examples.q 0; Examples.q 0]
           Examples.audio_2 Examples.video_3 Examples.mask_1
           (Tensor2 1 2 [[Examples.q 4; Examples.q 4]])).
  vm_compute. reflexivity.
Defined.

(** The head of the encoder-stack and encoder-decoder models: built with
    one output, it wants [fused_dimension * 2] columns and gives one. *)
Lemma mlp_forward_shape `{T : TorchNN} (fused_dimension : nat) (p : Qc)
    (w1 : list (list scalar)) (b1 : list scalar)
    (w2 : list (list scalar)) (b2 : list scalar) (x y : tensor2 scalar) :
  ShallowNN_forward
    (ShallowNN_init (fused_dimension * 2) (Some fused_dimension) (Some 1)
       Sigmoid p w1 b1 w2 b2) x = Some y ->
  cols2 x = fused_dimension * 2 /\ exists l, squeeze_last y = Squeezed1 l.
Proof.
  intros E. split; [apply (PoolingFacts.ShallowNN_forward_cols _ _ _ E)|].
  unfold ShallowNN_forward in E.
  destruct (Linear_forward _ x) as [x1|]; simpl in E; [|discriminate].
  unfold Linear_forward in E. case_decide; [|discriminate].
  injection E as <-. unfold squeeze_last. simpl. eexists. reflexivity.
Qed.

(** X17.  A pass of the encoder-stack model that returns gives a 1-D
    tensor, and the pooling of the fused sequence, called with the validity
    mask, gave [fused_dimension * 2] columns. *)
Theorem DetrTransformerFusion_forward_shape `{L : Layers}
    (video_dimension audio_dimension fused_dimension : nat)
    (w1 : list (list scalar)) (b1 : list scalar)
    (w2 : list (list scalar)) (b2 : list scalar)
    (a v : tensor3 scalar) (m : tensor2 scalar) (r : squeezed)
    (Hpass : DetrTransformerFusion_forward
               (DetrTransformerFusion_init video_dimension audio_dimension
                  fused_dimension w1 b1 w2 b2) a v m = Some r) :
  exists (f : tensor3 scalar) (p : tensor2 scalar) (l : list scalar),
    GAP_forward GAP_init f m = Some p
    /\ cols2 p = fused_dimension * 2
    /\ r = Squeezed1 l.
Proof.
  unfold DetrTransformerFusion_forward in Hpass. simpl in Hpass.
  destruct (Projection_forward _ a) as [a1|]; simpl in Hpass; [|discriminate].
  destruct (Projection_forward _ v) as [v1|]; simpl in Hpass; [|discriminate].
  destruct (TransformerEncoder_forward _ (permute102 a1) _) as [a2|];
    simpl in Hpass; [|discriminate].
  destruct (TransformerEncoder_forward _ (permute102 v1) _) as [v2|];
    simpl in Hpass; [|discriminate].
  destruct (cat3_dim2 a2 v2) as [f1|]; simpl in Hpass; [|discriminate].
  destruct (TransformerEncoder_forward _ f1 _) as [f2|];
    simpl in Hpass; [|discriminate].
  destruct (GAP_forward GAP_init (permute102 f2) m) as [p|] eqn:Ep;
    simpl in Hpass; [|discriminate].
  destruct (ShallowNN_forward _ p) as [y|] eqn:Ey; simpl in Hpass; [|discriminate].
  injection Hpass as <-.
  destruct (mlp_forward_shape _ _ _ _ _ _ _ _ Ey) as [Hp [l Hl]].
  exists (permute102 f2), p, l. auto.
Qed.

Lemma DetrTransformerFusion_forward_shape_witness :
  exists (f : tensor3 scalar) (p : tensor2 scalar) (l : list scalar),
    @GAP_forward _ Examples.plain_layers (@GAP_init _ Examples.plain_layers)
      f Examples.mask_10 = Some p
    /\ cols2 p = 1 * 2
    /\ Squeezed1 [Examples.q 8] = Squeezed1 l.
Proof.
  apply (@DetrTransformerFusion_forward_shape Examples.identity_torch
           Examples.plain_layers 1 1 1
           [[Examples.q 1; Examples.q 1]] [Examples.q 0] [[Examples.q 1]]
           [Examples.q 0] Examples.audio_15 Examples.video_20 Examples.mask_10
           (Squeezed1 [Examples.q 8])).
  vm_compute. reflexivity.
Defined.

(** X18.  A pass of the encoder-decoder model that returns has projected
    the two modalities, encoded each with the validity mask, and decoded
    the two encodings with it; the pooling of the decoder's output, called
    with the same mask, gave [fused_dimension * 2] columns, twice the
    width the encoders and the decoder are built with; and the result,
    which is the head's output on the pooled features, is a 1-D tensor. *)
Theorem StanfordTransformerFusion_forward_shape `{AL : AnnotatedLayers}
    (video_dimension audio_dimension fused_dimension : nat)
    (w1 : list (list scalar)) (b1 : list scalar)
    (w2 : list (list scalar)) (b2 : list scalar)
    (a v : tensor3 scalar) (m : tensor2 scalar) (r : squeezed)
    (Hpass : StanfordTransformerFusion_forward
               (StanfordTransformerFusion_init video_dimension audio_dimension
                  fused_dimension w1 b1 w2 b2) a v m = Some r) :
  let self := StanfordTransformerFusion_init video_dimension audio_dimension
                fused_dimension w1 b1 w2 b2 in
  exists (a1 v1 a2 v2 f : tensor3 scalar) (p y : tensor2 scalar)
         (l : list scalar),
    Projection_forward (s_audio_prj self) a = Some a1
    /\ Projection_forward (s_video_prj self) v = Some v1
    /\ Encoder_forward (s_audio_enc self) a1 m = Some a2
    /\ Encoder_forward (s_video_enc self) v1 m = Some v2
    /\ Decoder_forward (s_fused_dec self) a2 v2 m = Some f
    /\ GAP_forward (s_gap self) f m = Some p
    /\ cols2 p = fused_dimension * 2
    /\ ShallowNN_forward (s_mlp self) p = Some y
    /\ r = squeeze_last y
    /\ r = Squeezed1 l.
Proof.
  intros self. unfold StanfordTransformerFusion_forward in Hpass.
  apply bind_Some in Hpass as (a1 & Ea1 & Hpass).
  apply bind_Some in Hpass as (v1 & Ev1 & Hpass).
  apply bind_Some in Hpass as (a2 & Ea2 & Hpass).
  apply bind_Some in Hpass as (v2 & Ev2 & Hpass).
  apply bind_Some in Hpass as (f & Ef & Hpass).
  apply bind_Some in Hpass as (p & Ep & Hpass).
  apply bind_Some in Hpass as (y & Ey & Hpass).
  injection Hpass as <-.
  destruct (mlp_forward_shape _ _ _ _ _ _ _ _ Ey) as [Hp [l Hl]].
  exists a1, v1, a2, v2, f, p, y, l.
  repeat (split; [first [assumption|reflexivity]|]). exact Hl.
Qed.

Lemma StanfordTransformerFusion_forward_shape_witness :
  let self := StanfordExamples.stanford_1 in
  exists (a1 v1 a2 v2 f : tensor3 scalar) (p y : tensor2 scalar)
         (l : list scalar),
    Projection_forward (s_audio_prj self) Examples.audio_15 = Some a1
    /\ Projection_forward (s_video_prj self) Examples.video_20 = Some v1
    /\ Encoder_forward (s_audio_enc self) a1 Examples.mask_10 = Some a2
    /\ Encoder_forward (s_video_enc self) v1 Examples.mask_10 = Some v2
    /\ Decoder_forward (s_fused_dec self) a2 v2 Examples.mask_10 = Some f
    /\ GAP_forward (s_gap self) f Examples.mask_10 = Some p
    /\ cols2 p = 1 * 2
    /\ ShallowNN_forward (s_mlp self) p = Some y
    /\ Squeezed1 [Examples.q 8] = squeeze_last y
    /\ Squeezed1 [Examples.q 8] = Squeezed1 l.
Proof.
  apply (@StanfordTransformerFusion_forward_shape Examples.identity_torch
           Examples.plain_layers StanfordExamples.plain_annotated 1 1 1
           [[Examples.q 1; Examples.q 1]] [Examples.q 0] [[Examples.q 1]]
           [Examples.q 0] Examples.audio_15 Examples.video_20 Examples.mask_10
           (Squeezed1 [Examples.q 8])).
  vm_compute. reflexivity.
Defined.

End ModelFacts.
